(** * Stock checker: a shallow embedding of [scripts/check_stock.py]

    The script fetches one product page, classifies its text as available or
    not, compares with a small JSON state file, sends up to two e-mails and
    writes the state back.  This development embeds the script's functions
    as Rocq functions over an explicit world (network, file, environment,
    clock, SMTP server) and proves the properties its specification states.

    Python strings are sequences of Unicode code points, so [text] is a list
    of code points; literals are written as UTF-8 Rocq strings and decoded by
    [u]. *)

From Stdlib Require Import List NArith ZArith Bool Lia String Ascii.
Import ListNotations.

Set Implicit Arguments.
Set Warnings "-notation-for-abbreviation".

(* ================================================================= *)
(** ** Text: Python [str] *)

Definition char := N.
Definition text := list char.

Module Text.
Local Open Scope N_scope.

Fixpoint bytes_of (s : string) : list N :=
  match s with
  | EmptyString => []
  | String a r => N_of_ascii a :: bytes_of r
  end.

(** UTF-8 decoding of a well-formed byte sequence (used for literals only). *)
Fixpoint utf8_decode (bs : list N) : text :=
  match bs with
  | [] => []
  | b0 :: r0 =>
    if b0 <? 0x80 then b0 :: utf8_decode r0
    else if b0 <? 0xE0 then
      match r0 with
      | b1 :: r1 => ((b0 mod 0x20) * 0x40 + b1 mod 0x40) :: utf8_decode r1
      | _ => []
      end
    else if b0 <? 0xF0 then
      match r0 with
      | b1 :: b2 :: r2 =>
        ((b0 mod 0x10) * 0x1000 + (b1 mod 0x40) * 0x40 + b2 mod 0x40)
          :: utf8_decode r2
      | _ => []
      end
    else
      match r0 with
      | b1 :: b2 :: b3 :: r3 =>
        ((b0 mod 0x08) * 0x40000 + (b1 mod 0x40) * 0x1000
         + (b2 mod 0x40) * 0x40 + b3 mod 0x40) :: utf8_decode r3
      | _ => []
      end
  end.

Definition u (s : string) : text := utf8_decode (bytes_of s).

(** The code point of a one-byte literal, [ch "a"] = 97. *)
Definition ch (s : string) : char :=
  match bytes_of s with
  | c :: _ => c
  | [] => 0
  end.

Definition text_eqb (a b : text) : bool :=
  if list_eq_dec N.eq_dec a b then true else false.

(** [str.isspace] of one character: CPython's [_PyUnicode_IsWhitespace]. *)
Definition isspace (c : char) : bool :=
  ((0x09 <=? c) && (c <=? 0x0D)) || ((0x1C <=? c) && (c <=? 0x20))
  || (c =? 0x85) || (c =? 0xA0) || (c =? 0x1680)
  || ((0x2000 <=? c) && (c <=? 0x200A))
  || (c =? 0x2028) || (c =? 0x2029) || (c =? 0x202F) || (c =? 0x205F)
  || (c =? 0x3000).

Fixpoint lstrip (s : text) : text :=
  match s with
  | [] => []
  | c :: r => if isspace c then lstrip r else s
  end.

Definition rstrip (s : text) : text := rev (lstrip (rev s)).

(** [s.strip()] *)
Definition strip (s : text) : text := rstrip (lstrip s).

(** [s.split(sep)] for a one-character separator. *)
Fixpoint split (sep : char) (s : text) : list text :=
  match s with
  | [] => [[]]
  | c :: r =>
    if c =? sep then [] :: split sep r
    else match split sep r with
         | h :: t => (c :: h) :: t
         | [] => [[c]]
         end
  end.

(** [sep.join(parts)] *)
Fixpoint join (sep : text) (parts : list text) : text :=
  match parts with
  | [] => []
  | [p] => p
  | p :: rest => p ++ sep ++ join sep rest
  end.

(** [s.replace(old, new)] for a one-character [old]. *)
Definition replace (old : char) (new : text) (s : text) : text :=
  flat_map (fun c => if c =? old then new else [c]) s.

(** Python truthiness of a string used as a condition. *)
Definition nonempty (s : text) : bool :=
  match s with [] => false | _ => true end.

End Text.
Import Text.

(* ================================================================= *)
(** ** Exceptions and results *)

(** The exceptions a run can end with.  [NetworkError] stands for what
    [urllib] raises, [DeliveryError] for what [smtplib] raises.
    [Unmodelled] marks inputs whose Python value this embedding has no
    type for (JSON floating-point numbers). *)
Inductive exn : Type :=
| NetworkError
| DeliveryError
| JSONDecodeError
| UnicodeEncodeError
| KeyError (name : text)
| ValueError
| TypeError
| AttributeError
| RecursionError
| Unmodelled.

Inductive result (A : Type) : Type :=
| Ok (a : A)
| Raise (e : exn).
Arguments Ok {A} a.
Arguments Raise {A} e.

Definition rbind {A B} (r : result A) (k : A -> result B) : result B :=
  match r with
  | Ok a => k a
  | Raise e => Raise e
  end.

(* ================================================================= *)
(** ** JSON: the values [json.loads] builds and [json.dumps] prints *)

(** Python objects that occur as JSON data.  A [dict] keeps its keys in
    insertion order, so it is an association list with distinct keys. *)
#[warnings="-register-all"]
Inductive pyval : Type :=
| PNone
| PBool (b : bool)
| PInt (z : Z)
| PStr (s : text)
| PList (l : list pyval)
| PDict (d : list (text * pyval)).

Definition dict := list (text * pyval).

Module Json.
Local Open Scope N_scope.

(** [d.get(k)] on a dict (absent keys give [None]). *)
Fixpoint dict_get (d : dict) (k : text) : pyval :=
  match d with
  | [] => PNone
  | (k', v) :: r => if text_eqb k' k then v else dict_get r k
  end.

(** [d[k] = v]: overwrite in place, or append a new key. *)
Fixpoint dict_set (d : dict) (k : text) (v : pyval) : dict :=
  match d with
  | [] => [(k, v)]
  | (k', v') :: r =>
    if text_eqb k' k then (k', v) :: r else (k', v') :: dict_set r k v
  end.

(** *** Encoder: [json.dumps(obj, indent=2, ensure_ascii=False)] *)

Definition hexdigit (d : N) : char := if d <? 10 then 48 + d else 87 + d.

(** [ESCAPE_DCT]: quote, backslash and the control characters. *)
Definition escape_char (c : char) : text :=
  if c =? 34 then [92; 34]
  else if c =? 92 then [92; 92]
  else if c =? 8 then [92; ch "b"]
  else if c =? 12 then [92; ch "f"]
  else if c =? 10 then [92; ch "n"]
  else if c =? 13 then [92; ch "r"]
  else if c =? 9 then [92; ch "t"]
  else if c <? 0x20 then [92; ch "u"; 48; 48; hexdigit (c / 16); hexdigit (c mod 16)]
  else [c].

Definition encode_basestring (s : text) : text :=
  34 :: flat_map escape_char s ++ [34].

Fixpoint uint_chars (d : Decimal.uint) : text :=
  match d with
  | Decimal.Nil => []
  | Decimal.D0 r => 48 :: uint_chars r
  | Decimal.D1 r => 49 :: uint_chars r
  | Decimal.D2 r => 50 :: uint_chars r
  | Decimal.D3 r => 51 :: uint_chars r
  | Decimal.D4 r => 52 :: uint_chars r
  | Decimal.D5 r => 53 :: uint_chars r
  | Decimal.D6 r => 54 :: uint_chars r
  | Decimal.D7 r => 55 :: uint_chars r
  | Decimal.D8 r => 56 :: uint_chars r
  | Decimal.D9 r => 57 :: uint_chars r
  end.

(** [int.__repr__] *)
Definition int_repr (z : Z) : text :=
  match z with
  | Z0 => [48]
  | Zpos p => uint_chars (Pos.to_uint p)
  | Zneg p => ch "-" :: uint_chars (Pos.to_uint p)
  end.

(** A line break followed by [level] indentation steps of two spaces. *)
Definition newline_indent (level : nat) : text :=
  10 :: repeat 32 (2 * level).

Fixpoint encode (level : nat) (v : pyval) : text :=
  match v with
  | PNone => u "null"
  | PBool true => u "true"
  | PBool false => u "false"
  | PInt z => int_repr z
  | PStr s => encode_basestring s
  | PList [] => u "[]"
  | PList l =>
    ch "[" :: newline_indent (S level)
      ++ join (ch "," :: newline_indent (S level)) (map (encode (S level)) l)
      ++ newline_indent level ++ [ch "]"]
  | PDict [] => u "{}"
  | PDict d =>
    ch "{" :: newline_indent (S level)
      ++ join (ch "," :: newline_indent (S level))
           (map (fun kv => encode_basestring (fst kv) ++ u ": "
                           ++ encode (S level) (snd kv)) d)
      ++ newline_indent level ++ [ch "}"]
  end.

Definition dumps (v : pyval) : text := encode 0 v.

(** *** Decoder: [json.loads] *)

Definition is_ws (c : char) : bool :=
  (c =? 32) || (c =? 9) || (c =? 10) || (c =? 13).

Fixpoint skip_ws (s : text) : text :=
  match s with
  | c :: r => if is_ws c then skip_ws r else s
  | [] => []
  end.

Definition hexval (c : char) : option N :=
  if (48 <=? c) && (c <=? 57) then Some (c - 48)
  else if (97 <=? c) && (c <=? 102) then Some (c - 87)
  else if (65 <=? c) && (c <=? 70) then Some (c - 55)
  else None.

Definition hex4 (a b c d : char) : option N :=
  match hexval a, hexval b, hexval c, hexval d with
  | Some x, Some y, Some z, Some w => Some (((x * 16 + y) * 16 + z) * 16 + w)
  | _, _, _, _ => None
  end.

(** [BACKSLASH]: the one-letter escapes. *)
Definition backslash (e : char) : option char :=
  if e =? 34 then Some 34
  else if e =? 92 then Some 92
  else if e =? ch "/" then Some (ch "/")
  else if e =? ch "b" then Some 8
  else if e =? ch "f" then Some 12
  else if e =? ch "n" then Some 10
  else if e =? ch "r" then Some 13
  else if e =? ch "t" then Some 9
  else None.

Definition cons_str (c : char) (r : result (text * text)) : result (text * text) :=
  match r with
  | Ok (str, rest) => Ok (c :: str, rest)
  | Raise e => Raise e
  end.

(** [scanstring] in strict mode, from just after the opening quote: the
    decoded string and the input after the closing quote. *)
Fixpoint scanstring (s : text) : result (text * text) :=
  match s with
  | [] => Raise JSONDecodeError
  | c :: r =>
    if c =? 34 then Ok ([], r)
    else if c =? 92 then
      match r with
      | [] => Raise JSONDecodeError
      | e :: r1 =>
        if e =? ch "u" then
          match r1 with
          | h1 :: h2 :: h3 :: h4 :: r2 =>
            match hex4 h1 h2 h3 h4 with
            | None => Raise JSONDecodeError
            | Some uni =>
              if (0xD800 <=? uni) && (uni <=? 0xDBFF) then
                match r2 with
                | b :: e2 :: g1 :: g2 :: g3 :: g4 :: r3 =>
                  if (b =? 92) && (e2 =? ch "u") then
                    match hex4 g1 g2 g3 g4 with
                    | None => Raise JSONDecodeError
                    | Some uni2 =>
                      if (0xDC00 <=? uni2) && (uni2 <=? 0xDFFF) then
                        cons_str (0x10000 + (uni - 0xD800) * 0x400 + (uni2 - 0xDC00))
                                 (scanstring r3)
                      else cons_str uni (scanstring r2)
                    end
                  else cons_str uni (scanstring r2)
                | _ => cons_str uni (scanstring r2)
                end
              else cons_str uni (scanstring r2)
            end
          | _ => Raise JSONDecodeError
          end
        else
          match backslash e with
          | Some c' => cons_str c' (scanstring r1)
          | None => Raise JSONDecodeError
          end
      end
    else if c <? 0x20 then Raise JSONDecodeError
    else cons_str c (scanstring r)
  end.

Definition is_digit (c : char) : bool := (48 <=? c) && (c <=? 57).

(** Leading decimal digits of [s], as a number, and what follows them. *)
Fixpoint digits (acc : N) (s : text) : N * text :=
  match s with
  | c :: r => if is_digit c then digits (acc * 10 + (c - 48)) r else (acc, s)
  | [] => (acc, [])
  end.

Definition starts_digit (s : text) : bool :=
  match s with c :: _ => is_digit c | [] => false end.

(** Whether a fraction or an exponent follows the integer part: the
    literal is then a float. *)
Definition float_tail (s : text) : bool :=
  match s with
  | c :: r =>
    if c =? ch "." then starts_digit r
    else if (c =? ch "e") || (c =? ch "E") then
      match r with
      | sg :: r' =>
        if (sg =? ch "+") || (sg =? ch "-") then starts_digit r'
        else is_digit sg
      | [] => false
      end
    else false
  | [] => false
  end.

(** [_match_number]: an optional minus sign, then 0 or a digit string
    without leading zero; integers only. *)
Definition match_number (s : text) : result (pyval * text) :=
  let '(neg, s1) :=
    match s with
    | c :: r => if c =? ch "-" then (true, r) else (false, s)
    | [] => (false, s)
    end in
  match s1 with
  | c :: r =>
    if c =? 48 then
      if float_tail r then Raise Unmodelled else Ok (PInt 0, r)
    else if is_digit c then
      let '(n, rest) := digits 0 s1 in
      if float_tail rest then Raise Unmodelled
      else Ok (PInt (if neg then - Z.of_N n else Z.of_N n), rest)
    else Raise JSONDecodeError
  | [] => Raise JSONDecodeError
  end.

(** [strip_prefix p s]: [s] without its prefix [p], when it has it. *)
Fixpoint strip_prefix (p s : text) : option text :=
  match p, s with
  | [], _ => Some s
  | a :: p', b :: s' => if a =? b then strip_prefix p' s' else None
  | _ :: _, [] => None
  end.

Definition fold_pairs (ps : list (text * pyval)) : dict :=
  fold_left (fun d kv => dict_set d (fst kv) (snd kv)) ps [].

(** [scan_once] with its two loops.  [fuel] bounds the number of nested
    calls; [loads] gives it more than the input is long. *)
Fixpoint scan_once (fuel : nat) (s : text) {struct fuel} : result (pyval * text) :=
  match fuel with
  | O => Raise RecursionError
  | S f =>
    match s with
    | [] => Raise JSONDecodeError
    | c :: r =>
      if c =? 34 then
        match scanstring r with
        | Ok (str, rest) => Ok (PStr str, rest)
        | Raise e => Raise e
        end
      else if c =? ch "{" then
        match skip_ws r with
        | c' :: r' =>
          if c' =? ch "}" then Ok (PDict [], r')
          else match object_members f (skip_ws r) with
               | Ok (ps, rest) => Ok (PDict (fold_pairs ps), rest)
               | Raise e => Raise e
               end
        | [] => Raise JSONDecodeError
        end
      else if c =? ch "[" then
        match skip_ws r with
        | c' :: r' =>
          if c' =? ch "]" then Ok (PList [], r')
          else match array_items f (skip_ws r) with
               | Ok (vs, rest) => Ok (PList vs, rest)
               | Raise e => Raise e
               end
        | [] => Raise JSONDecodeError
        end
      else
        match strip_prefix (u "null") s, strip_prefix (u "true") s,
              strip_prefix (u "false") s with
        | Some rest, _, _ => Ok (PNone, rest)
        | _, Some rest, _ => Ok (PBool true, rest)
        | _, _, Some rest => Ok (PBool false, rest)
        | None, None, None =>
          match strip_prefix (u "NaN") s, strip_prefix (u "Infinity") s,
                strip_prefix (u "-Infinity") s with
          | None, None, None => match_number s
          | _, _, _ => Raise Unmodelled
          end
        end
    end
  end

with object_members (fuel : nat) (s : text) {struct fuel}
  : result (list (text * pyval) * text) :=
  match fuel with
  | O => Raise RecursionError
  | S f =>
    match s with
    | c :: r =>
      if c =? 34 then
        match scanstring r with
        | Raise e => Raise e
        | Ok (key, r1) =>
          match skip_ws r1 with
          | c1 :: r2 =>
            if c1 =? ch ":" then
              match scan_once f (skip_ws r2) with
              | Raise e => Raise e
              | Ok (v, r3) =>
                match skip_ws r3 with
                | c3 :: r4 =>
                  if c3 =? ch "}" then Ok ([(key, v)], r4)
                  else if c3 =? ch "," then
                    match object_members f (skip_ws r4) with
                    | Ok (ps, rest) => Ok ((key, v) :: ps, rest)
                    | Raise e => Raise e
                    end
                  else Raise JSONDecodeError
                | [] => Raise JSONDecodeError
                end
              end
            else Raise JSONDecodeError
          | [] => Raise JSONDecodeError
          end
        end
      else Raise JSONDecodeError
    | [] => Raise JSONDecodeError
    end
  end

with array_items (fuel : nat) (s : text) {struct fuel}
  : result (list pyval * text) :=
  match fuel with
  | O => Raise RecursionError
  | S f =>
    match scan_once f s with
    | Raise e => Raise e
    | Ok (v, r1) =>
      match skip_ws r1 with
      | c :: r2 =>
        if c =? ch "]" then Ok ([v], r2)
        else if c =? ch "," then
          match array_items f (skip_ws r2) with
          | Ok (vs, rest) => Ok (v :: vs, rest)
          | Raise e => Raise e
          end
        else Raise JSONDecodeError
      | [] => Raise JSONDecodeError
      end
    end
  end.

(** [json.loads(s)]: no byte-order mark, one value, then only white space. *)
Definition loads (s : text) : result pyval :=
  match s with
  | 0xFEFF :: _ => Raise JSONDecodeError
  | _ =>
    match scan_once (S (List.length s)) (skip_ws s) with
    | Raise e => Raise e
    | Ok (v, rest) =>
      match skip_ws rest with
      | [] => Ok v
      | _ :: _ => Raise JSONDecodeError
      end
    end
  end.

(** *** The printed form of a dict of scalars *)

(** A scalar: a value printed without line breaks of its own. *)
Definition scalar (v : pyval) : bool :=
  match v with
  | PNone | PBool _ | PStr _ => true
  | _ => false
  end.

Definition flat (d : dict) : bool := forallb (fun kv => scalar (snd kv)) d.

(** One [key: value] line, and the lines of a dict at top level. *)
Definition member (lvl : nat) (kv : text * pyval) : text :=
  encode_basestring (fst kv) ++ u ": " ++ encode lvl (snd kv).

Definition members_text (d : dict) : text :=
  join (ch "," :: newline_indent 1) (map (member 1) d).

End Json.

Import Json.

(* ================================================================= *)
(** ** Dates and times: Python [datetime] *)

(** A [datetime] value.  [utcoffset] is the offset of its time zone east of
    UTC in microseconds, [None] for a naive value. *)
Record datetime : Type := mk_datetime {
  year : Z;
  month : Z;
  day : Z;
  hour : Z;
  minute : Z;
  second : Z;
  microsecond : Z;
  utcoffset : option Z
}.

Module Datetime.
Local Open Scope Z_scope.

Definition is_leap (y : Z) : bool :=
  (y mod 4 =? 0) && (negb (y mod 100 =? 0) || (y mod 400 =? 0)).

Definition days_before_year (y : Z) : Z :=
  let p := y - 1 in p * 365 + p / 4 - p / 100 + p / 400.

Definition days_in_month (y m : Z) : Z :=
  if m =? 2 then (if is_leap y then 29 else 28)
  else if (m =? 4) || (m =? 6) || (m =? 9) || (m =? 11) then 30
  else 31.

Definition days_before_month (y m : Z) : Z :=
  nth (Z.to_nat m) [0; 0; 31; 59; 90; 120; 151; 181; 212; 243; 273; 304; 334] 0
  + (if (2 <? m) && is_leap y then 1 else 0).

(** [date.toordinal()]: 1 for 0001-01-01. *)
Definition ymd2ord (y m d : Z) : Z :=
  days_before_year y + days_before_month y m + d.

(** The fields a constructor accepts. *)
Definition valid (d : datetime) : bool :=
  (1 <=? year d) && (year d <=? 9999)
  && (1 <=? month d) && (month d <=? 12)
  && (1 <=? day d) && (day d <=? days_in_month (year d) (month d))
  && (0 <=? hour d) && (hour d <=? 23)
  && (0 <=? minute d) && (minute d <=? 59)
  && (0 <=? second d) && (second d <=? 59)
  && (0 <=? microsecond d) && (microsecond d <=? 999999)
  && match utcoffset d with
     | Some o => (- 86400000000 <? o) && (o <? 86400000000)
     | None => true
     end.

(** Microseconds of the local date and time since ordinal day 0. *)
Definition local_us (d : datetime) : Z :=
  ((ymd2ord (year d) (month d) (day d) * 86400
    + hour d * 3600 + minute d * 60 + second d) * 1000000)
  + microsecond d.

(** [a - b] as a [timedelta], in microseconds.  Two aware values are
    compared as instants, two naive ones as written; mixing them is a
    [TypeError]. *)
Definition sub (a b : datetime) : result Z :=
  match utcoffset a, utcoffset b with
  | Some oa, Some ob => Ok ((local_us a - oa) - (local_us b - ob))
  | None, None => Ok (local_us a - local_us b)
  | _, _ => Raise TypeError
  end.

(** [td.total_seconds() >= secs] for a [timedelta] of [td] microseconds and
    an integer [secs].  [total_seconds] is the correctly rounded quotient
    [td / 10**6]; rounding is monotone and [secs] is a float, so the test on
    the float agrees with this test on the integers whenever
    [secs * 10**6 - 1] and [secs] round to different floats, which holds for
    the twelve hours the script compares with. *)
Definition total_seconds_ge (td secs : Z) : bool := secs * 1000000 <=? td.

Definition digit_char (d : Z) : char := Z.to_N (48 + d mod 10).

Definition pad2 (n : Z) : text := [digit_char (n / 10); digit_char n].

Definition pad4 (n : Z) : text :=
  [digit_char (n / 1000); digit_char (n / 100); digit_char (n / 10); digit_char n].

Definition pad6 (n : Z) : text :=
  [digit_char (n / 100000); digit_char (n / 10000); digit_char (n / 1000);
   digit_char (n / 100); digit_char (n / 10); digit_char n].

(** [_format_offset]: [+HH:MM], with seconds and microseconds when they are
    not zero. *)
Definition format_offset (off : option Z) : text :=
  match off with
  | None => []
  | Some o =>
    let a := Z.abs o in
    let hh := a / 3600000000 in
    let mm := (a mod 3600000000) / 60000000 in
    let ss := (a mod 60000000) / 1000000 in
    let us := a mod 1000000 in
    (if o <? 0 then ch "-" else ch "+") :: pad2 hh ++ ch ":" :: pad2 mm
      ++ (if (ss =? 0) && (us =? 0) then []
          else ch ":" :: pad2 ss
               ++ (if us =? 0 then [] else ch "." :: pad6 us))
  end.

(** [d.isoformat()] of a value with valid fields. *)
Definition isoformat (d : datetime) : text :=
  pad4 (year d) ++ ch "-" :: pad2 (month d) ++ ch "-" :: pad2 (day d)
    ++ ch "T" :: pad2 (hour d) ++ ch ":" :: pad2 (minute d)
    ++ ch ":" :: pad2 (second d)
    ++ (if microsecond d =? 0 then [] else ch "." :: pad6 (microsecond d))
    ++ format_offset (utcoffset d).

(** *** A parser for the documented [fromisoformat] grammar

    [YYYY-MM-DD[*HH[:MM[:SS[.fff[fff]]]][+HH:MM[:SS[.ffffff]]]]], the
    strings every Python version that runs the script accepts.  The script
    itself is verified for an arbitrary [fromisoformat]; this instance makes
    its runs executable. *)

Definition digit (c : char) : option Z :=
  if ((48 <=? c) && (c <=? 57))%N then Some (Z.of_N c - 48) else None.

Fixpoint number (acc : Z) (s : text) : option Z :=
  match s with
  | [] => Some acc
  | c :: r =>
    match digit c with
    | Some d => number (acc * 10 + d) r
    | None => None
    end
  end.

Definition is_colon (c : char) : bool := (c =? ch ":")%N.

(** [HH[:MM[:SS[.fff[fff]]]]]: hour, minute, second, microsecond. *)
Definition parse_hh_mm_ss_ff (s : text) : option (Z * Z * Z * Z) :=
  match s with
  | [h1; h2] =>
    match number 0 [h1; h2] with
    | Some h => Some (h, 0, 0, 0)
    | None => None
    end
  | [h1; h2; c1; m1; m2] =>
    match number 0 [h1; h2], number 0 [m1; m2] with
    | Some h, Some m => if is_colon c1 then Some (h, m, 0, 0) else None
    | _, _ => None
    end
  | h1 :: h2 :: c1 :: m1 :: m2 :: c2 :: s1 :: s2 :: frac =>
    match number 0 [h1; h2], number 0 [m1; m2], number 0 [s1; s2] with
    | Some h, Some m, Some sec =>
      if is_colon c1 && is_colon c2 then
        match frac with
        | [] => Some (h, m, sec, 0)
        | [dot; f1; f2; f3] =>
          match number 0 [f1; f2; f3] with
          | Some f => if (dot =? ch ".")%N then Some (h, m, sec, f * 1000) else None
          | None => None
          end
        | [dot; f1; f2; f3; f4; f5; f6] =>
          match number 0 [f1; f2; f3; f4; f5; f6] with
          | Some f => if (dot =? ch ".")%N then Some (h, m, sec, f) else None
          | None => None
          end
        | _ => None
        end
      else None
    | _, _, _ => None
    end
  | _ => None
  end.

(** The time before the first sign character, and the sign and the zone
    string after it. *)
Fixpoint split_tz (s : text) : text * option (bool * text) :=
  match s with
  | [] => ([], None)
  | c :: r =>
    if (c =? ch "+")%N then ([], Some (false, r))
    else if (c =? ch "-")%N then ([], Some (true, r))
    else let '(t, z) := split_tz r in (c :: t, z)
  end.

Definition parse_time (s : text) : option (Z * Z * Z * Z * option Z) :=
  let '(t, z) := split_tz s in
  match parse_hh_mm_ss_ff t with
  | None => None
  | Some tm =>
    match z with
    | None => Some (tm, None)
    | Some (neg, zs) =>
      match parse_hh_mm_ss_ff zs with
      | Some (zh, zm, zsec, zus) =>
        if Nat.eqb (List.length zs) 5 || Nat.eqb (List.length zs) 8
           || Nat.eqb (List.length zs) 15 then
          let o := (zh * 3600 + zm * 60 + zsec) * 1000000 + zus in
          Some (tm, Some (if neg then - o else o))
        else None
      | None => None
      end
    end
  end.

Definition fromisoformat (s : text) : result datetime :=
  match s with
  | y1 :: y2 :: y3 :: y4 :: c1 :: m1 :: m2 :: c2 :: d1 :: d2 :: rest =>
    match number 0 [y1; y2; y3; y4], number 0 [m1; m2], number 0 [d1; d2] with
    | Some y, Some m, Some d =>
      if ((c1 =? ch "-") && (c2 =? ch "-"))%N then
        match rest with
        | [] =>
          let r := mk_datetime y m d 0 0 0 0 None in
          if valid r then Ok r else Raise ValueError
        | _ :: tstr =>
          match parse_time tstr with
          | Some (h, mi, sec, us, off) =>
            let r := mk_datetime y m d h mi sec us off in
            if valid r then Ok r else Raise ValueError
          | None => Raise ValueError
          end
        end
      else Raise ValueError
    | _, _, _ => Raise ValueError
    end
  | _ => Raise ValueError
  end.

(** A character that is not a sign. *)
Definition unsigned (c : char) : bool :=
  negb (c =? ch "+")%N && negb (c =? ch "-")%N.

End Datetime.

(* ================================================================= *)
(** ** The world a run acts on *)

(** [email.message.EmailMessage] as the script fills it. *)
Record EmailMessage : Type := mk_message {
  Subject : text;
  From : text;
  To : text;
  content : text
}.

(** One call of [send_email] that reached the mail library: the SMTP
    parameters read from the environment and the message.  The envelope
    recipients are derived from the message's [To] header by [smtplib]. *)
Record Delivery : Type := mk_delivery {
  smtp_host : text;
  smtp_port : Z;
  smtp_user : text;
  smtp_pass : text;
  msg : EmailMessage
}.

(** *** The envelope: the addresses [smtplib] takes from the [To] header *)

(** [send_message] is called without recipients, so it takes them from the
    message: the [To] value was parsed when it was assigned, and
    [email.utils.getaddresses] parses its text again.  Both parsers are
    modelled on the headers they read alike: mailboxes separated by a
    comma and a space, each an address [local@domain] of dot-separated
    atoms, alone or as [Name <local@domain>] after a name of atoms.  The
    envelope of such a header is the list of the addresses; any other
    header is outside the model ([None]). *)
Module Smtp.
Local Open Scope N_scope.








End Smtp.


(** - [http url] is what a GET of [url] returns, decoded;
    - [file] is the content of [stock_state.json], [None] when absent;
    - [environ] is [os.environ];
    - [clock n] is the [n]-th reading of the system clock, [ticks] counts
      the readings made;
    - [mailer n d] is what building the message and running the SMTP
      session do on the [n]-th send: [None] when the message is delivered,
      the exception raised otherwise;
    - [smtp_log] lists the sends made, oldest first, with their outcome;
    - [stderr] lists the diagnostic lines printed, as the pair of values
      they show. *)
Record World : Type := mk_world {
  http : text -> result text;
  file : option text;
  environ : text -> option text;
  clock : nat -> datetime;
  ticks : nat;
  mailer : nat -> Delivery -> option exn;
  smtp_log : list (Delivery * option exn);
  stderr : list (bool * pyval)
}.

Definition set_file (w : World) (f : option text) : World :=
  mk_world (http w) f (environ w) (clock w) (ticks w) (mailer w)
           (smtp_log w) (stderr w).

Definition tick (w : World) : World :=
  mk_world (http w) (file w) (environ w) (clock w) (S (ticks w)) (mailer w)
           (smtp_log w) (stderr w).

Definition log_send (w : World) (d : Delivery) (o : option exn) : World :=
  mk_world (http w) (file w) (environ w) (clock w) (ticks w) (mailer w)
           (smtp_log w ++ [(d, o)]) (stderr w).

Definition log_stderr (w : World) (l : bool * pyval) : World :=
  mk_world (http w) (file w) (environ w) (clock w) (ticks w) (mailer w)
           (smtp_log w) (stderr w ++ [l]).

(** *** Computations: a state and exception monad over the world *)

Definition M (A : Type) : Type := World -> result A * World.

Definition ret {A} (a : A) : M A := fun w => (Ok a, w).

Definition raise {A} (e : exn) : M A := fun w => (Raise e, w).

Definition bind {A B} (c : M A) (k : A -> M B) : M B :=
  fun w =>
    match c w with
    | (Ok a, w') => k a w'
    | (Raise e, w') => (Raise e, w')
    end.

Definition lift {A} (r : result A) : M A := fun w => (r, w).

Declare Scope py_scope.
Delimit Scope py_scope with py.
Notation "x <- c ;; k" := (bind c (fun x => k))
  (at level 61, c at next level, right associativity) : py_scope.
Notation "c ;;; k" := (bind c (fun _ => k))
  (at level 61, right associativity) : py_scope.
Open Scope py_scope.

Definition nl : text := [10%N].

(* ================================================================= *)
(** ** The script *)

Section Script.

(** Three primitives of the Python runtime are parameters of the script:
    - [ci_eq p c]: under [re.IGNORECASE], the pattern character [p] matches
      the text character [c] (Unicode case tables);
    - [py_int s]: [int(s)], [None] when it raises [ValueError];
    - [fromisoformat s]: [datetime.fromisoformat(s)]. *)
Variable ci_eq : char -> char -> bool.
Variable py_int : text -> option Z.
Variable fromisoformat : text -> result datetime.

Definition PRODUCT_URL : text := u "https://maetpets.com/produkt/stop-madspil/".

Definition OUT_OF_STOCK_PATTERNS : list text :=
  [ u "Ikke på lager";
    u "Udsolgt" ].

Definition IN_STOCK_HINTS : list text :=
  [ u "På lager";
    u "Læg i kurv";
    u "Tilføj til kurv" ].

(** *** [re.search(pat, html, re.IGNORECASE)]

    The patterns above contain no regular-expression operator, so each one
    matches exactly the texts that contain it, character by character up to
    case. *)
Fixpoint match_here (pat s : text) : bool :=
  match pat, s with
  | [], _ => true
  | p :: pat', c :: s' => ci_eq p c && match_here pat' s'
  | _ :: _, [] => false
  end.

Fixpoint re_search (pat s : text) : bool :=
  match_here pat s
  || match s with
     | [] => false
     | _ :: s' => re_search pat s'
     end.

(** *** [detect_available] *)

(** [for pat in pats: if re.search(...): return True], else fall through. *)
Fixpoint any_match (pats : list text) (html : text) : bool :=
  match pats with
  | [] => false
  | pat :: rest => if re_search pat html then true else any_match rest html
  end.

Definition detect_available (html : text) : bool :=
  if any_match OUT_OF_STOCK_PATTERNS html then false
  else if any_match IN_STOCK_HINTS html then true
  else false.

(** *** Clock *)

(** [datetime.now(timezone.utc)] *)
Definition datetime_now : M datetime :=
  fun w =>
    let c := clock w (ticks w) in
    (Ok (mk_datetime (year c) (month c) (day c) (hour c) (minute c)
                     (second c) (microsecond c) (Some 0%Z)),
     tick w).

Definition utc_now_iso : M text :=
  now <- datetime_now ;;
  ret (Datetime.isoformat now).

(** *** [fetch_html] *)

Definition fetch_html (url : text) : M text :=
  fun w => (http w url, w).

(** *** State store *)

Definition default_state : pyval :=
  PDict [ (u "last_available", PNone); (u "last_status_email_utc", PNone) ].

Definition load_state : M pyval :=
  fun w =>
    match file w with
    | Some t => (Json.loads t, w)
    | None => (Ok default_state, w)
    end.

(** What the UTF-8 codec can encode: code points that are not surrogates. *)
Definition utf8_encodable (t : text) : bool :=
  forallb (fun c => ((c <? 0xD800) || ((0xDFFF <? c) && (c <? 0x110000)))%N) t.

(** [Path.write_text] opens the file for writing, which empties it, and then
    encodes and writes the text. *)
Definition write_text (t : text) : M unit :=
  fun w =>
    if utf8_encodable t then (Ok tt, set_file w (Some t))
    else (Raise UnicodeEncodeError, set_file w (Some [])).

Definition save_state (state : pyval) : M unit :=
  write_text (Json.dumps state ++ nl).

(** *** 12-hour gating *)

Definition parse_iso (dt : pyval) : result datetime :=
  match dt with
  | PStr s => fromisoformat (replace (ch "Z") (u "+00:00") s)
  | _ => Raise AttributeError
  end.

(** Truth value of an object used as a condition. *)
Definition truthy (v : pyval) : bool :=
  match v with
  | PNone => false
  | PBool b => b
  | PInt z => negb (z =? 0)%Z
  | PStr s => nonempty s
  | PList l => match l with [] => false | _ => true end
  | PDict d => match d with [] => false | _ => true end
  end.

Definition should_send_12h_status (last_sent_iso : pyval) (now : datetime)
  : result bool :=
  if negb (truthy last_sent_iso) then Ok true
  else
    match parse_iso last_sent_iso with
    | Raise e => Raise e
    | Ok last =>
      match Datetime.sub now last with
      | Raise e => Raise e
      | Ok td => Ok (Datetime.total_seconds_ge td (12 * 3600))
      end
    end.

(** *** [send_email] *)

(** [os.environ[name]] *)
Definition getenv (name : text) : M text :=
  fun w =>
    match environ w name with
    | Some v => (Ok v, w)
    | None => (Raise (KeyError name), w)
    end.

(** [os.environ.get(name, default)] *)
Definition getenv_default (name default : text) : M text :=
  fun w =>
    match environ w name with
    | Some v => (Ok v, w)
    | None => (Ok default, w)
    end.

Definition int (s : text) : M Z :=
  match py_int s with
  | Some z => ret z
  | None => raise ValueError
  end.

(** [[r.strip() for r in mail_to.split(",") if r.strip()]] *)
Definition recipients_of (mail_to : text) : list text :=
  map strip (filter (fun r => nonempty (strip r)) (split (ch ",") mail_to)).

(** The message is built and handed to the SMTP session; what these do is
    the world's [mailer]. *)
Definition smtp_send (d : Delivery) : M unit :=
  fun w =>
    match mailer w (List.length (smtp_log w)) d with
    | None => (Ok tt, log_send w d None)
    | Some e => (Raise e, log_send w d (Some e))
    end.

Definition send_email (subject body : text) : M unit :=
  host <- getenv (u "SMTP_HOST") ;;
  port_s <- getenv_default (u "SMTP_PORT") (u "587") ;;
  port <- int port_s ;;
  user <- getenv (u "SMTP_USERNAME") ;;
  pass <- getenv (u "SMTP_PASSWORD") ;;
  mail_from <- getenv (u "MAIL_FROM") ;;
  mail_to <- getenv (u "MAIL_TO") ;;
  let rcpts := recipients_of mail_to in
  smtp_send
    (mk_delivery host port user pass
       (mk_message subject mail_from (join (u ", ") rcpts) body)).

(** *** [main] *)

Definition RESTOCK_SUBJECT : text := u "✅ Back in stock: Stop madspild (MÆT)".
Definition STATUS_SUBJECT : text := u "Stock status (12h): Stop madspild (MÆT)".

Definition restock_body (checked : text) : text :=
  u "It looks AVAILABLE right now." ++ nl ++ nl ++ PRODUCT_URL ++ nl ++ nl
    ++ u "Checked (UTC): " ++ checked.

Definition status_body (available : bool) (checked : text) : text :=
  u "Current status: "
    ++ (if available then u "AVAILABLE ✅" else u "NOT available ❌")
    ++ nl ++ nl ++ PRODUCT_URL ++ nl ++ nl ++ u "Checked (UTC): " ++ checked.

(** [state.get(key)]: only a dict has the method. *)
Definition py_get (state : pyval) (key : text) : M pyval :=
  match state with
  | PDict d => ret (dict_get d key)
  | _ => raise AttributeError
  end.

(** [state[key] = value] *)
Definition py_setitem (state : pyval) (key : text) (value : pyval) : M pyval :=
  match state with
  | PDict d => ret (PDict (dict_set d key value))
  | _ => raise TypeError
  end.

(** [x is not True] *)
Definition is_not_True (v : pyval) : bool :=
  match v with
  | PBool true => false
  | _ => true
  end.

Definition print_stderr (available : bool) (last_available : pyval) : M unit :=
  fun w => (Ok tt, log_stderr w (available, last_available)).

Definition main : M unit :=
  html <- fetch_html PRODUCT_URL ;;
  let available := detect_available html in
  state <- load_state ;;
  last_available <- py_get state (u "last_available") ;;
  now <- datetime_now ;;
  (if available && is_not_True last_available then
     checked <- utc_now_iso ;;
     send_email RESTOCK_SUBJECT (restock_body checked)
   else ret tt) ;;;
  last_sent <- py_get state (u "last_status_email_utc") ;;
  due <- lift (should_send_12h_status last_sent now) ;;
  state <- (if due : bool then
              checked <- utc_now_iso ;;
              send_email STATUS_SUBJECT (status_body available checked) ;;;
              py_setitem state (u "last_status_email_utc")
                         (PStr (Datetime.isoformat now))
            else ret state) ;;
  state <- py_setitem state (u "last_available") (PBool available) ;;
  save_state state ;;;
  print_stderr available last_available.

(** *** Observations on a run, used to state its properties *)

(** [pat] occurs in [s] up to case: some factor of [s] matches it character
    by character. *)
Definition ci_occurs (pat s : text) : Prop :=
  exists pre mid post,
    s = pre ++ mid ++ post /\ Forall2 (fun p c => ci_eq p c = true) pat mid.

(** The values [send_email] reads from the environment, in its order:
    host, port, user, password, sender, recipient string. *)
Definition smtp_config (w : World)
  : result (text * Z * text * text * text * text) :=
  match environ w (u "SMTP_HOST") with
  | None => Raise (KeyError (u "SMTP_HOST"))
  | Some host =>
    match py_int (match environ w (u "SMTP_PORT") with
                  | Some p => p
                  | None => u "587"
                  end) with
    | None => Raise ValueError
    | Some port =>
      match environ w (u "SMTP_USERNAME") with
      | None => Raise (KeyError (u "SMTP_USERNAME"))
      | Some user =>
        match environ w (u "SMTP_PASSWORD") with
        | None => Raise (KeyError (u "SMTP_PASSWORD"))
        | Some pass =>
          match environ w (u "MAIL_FROM") with
          | None => Raise (KeyError (u "MAIL_FROM"))
          | Some mail_from =>
            match environ w (u "MAIL_TO") with
            | None => Raise (KeyError (u "MAIL_TO"))
            | Some mail_to => Ok (host, port, user, pass, mail_from, mail_to)
            end
          end
        end
      end
    end
  end.

(** The delivery [send_email] makes of a subject and a body under a
    configuration. *)
Definition delivery_of (cfg : text * Z * text * text * text * text)
           (subject body : text) : Delivery :=
  let '(host, port, user, pass, mail_from, mail_to) := cfg in
  mk_delivery host port user pass
    (mk_message subject mail_from (join (u ", ") (recipients_of mail_to)) body).

(** The sends made between two worlds of one run. *)
Definition sends (w w' : World) : list (Delivery * option exn) :=
  skipn (List.length (smtp_log w)) (smtp_log w').

(** A message with this subject was handed to the mail library. *)
Definition attempted (subject : text) (w w' : World) : Prop :=
  exists d o, In (d, o) (sends w w') /\ Subject (msg d) = subject.

(** A message with this subject was delivered. *)
Definition delivered (subject : text) (w w' : World) : Prop :=
  exists d, In (d, None) (sends w w') /\ Subject (msg d) = subject.

(** The state file holds what [save_state] writes for the dict [st]. *)
Definition persisted (w : World) (st : dict) : Prop :=
  file w = Some (Json.dumps (PDict st) ++ nl).

(** The value of [now] in a run of [main] that starts in [w]. *)
Definition now_of (w : World) : datetime :=
  let c := clock w (ticks w) in
  mk_datetime (year c) (month c) (day c) (hour c) (minute c) (second c)
              (microsecond c) (Some 0%Z).


(** The strings of a dict entry, its key and its value if a string, can be
    written to the file. *)
Definition strings_encodable (kv : text * pyval) : Prop :=
  utf8_encodable (fst kv) = true
  /\ forall s, snd kv = PStr s -> utf8_encodable s = true.

(** A persisted record as the specification describes it: availability
    true, false or unset, and a time stamp or unset. *)
Definition stock_state (last_available : option bool)
           (last_status_email_utc : option text) : pyval :=
  PDict [ (u "last_available",
           match last_available with Some b => PBool b | None => PNone end);
          (u "last_status_email_utc",
           match last_status_email_utc with Some t => PStr t | None => PNone end) ].

End Script.

(* ================================================================= *)
(** ** Instances of the runtime primitives, for running the script *)

Module Run.

(** Lower case of the ASCII and Latin-1 letters. *)
Definition lower (c : char) : char :=
  if ((65 <=? c) && (c <=? 90))%N then (c + 32)%N
  else if ((0xC0 <=? c) && (c <=? 0xDE) && negb (c =? 0xD7))%N then (c + 32)%N
  else c.

Definition ci_eq (p c : char) : bool := (lower p =? lower c)%N.

(** [int] of a string of ASCII decimal digits. *)
Definition py_int (s : text) : option Z :=
  match s with
  | [] => None
  | _ => Datetime.number 0 s
  end.

Definition detect_available := detect_available ci_eq.
Definition parse_iso := parse_iso Datetime.fromisoformat.
Definition should_send_12h_status := should_send_12h_status Datetime.fromisoformat.
Definition send_email := send_email py_int.
Definition main := main ci_eq py_int Datetime.fromisoformat.

Fixpoint lookup (l : list (text * text)) (k : text) : option text :=
  match l with
  | [] => None
  | (k', v) :: r => if text_eqb k' k then Some v else lookup r k
  end.

(** A complete environment. *)
Definition env0 : text -> option text :=
  lookup [ (u "SMTP_HOST", u "smtp.example.org");
           (u "SMTP_USERNAME", u "bot");
           (u "SMTP_PASSWORD", u "secret");
           (u "MAIL_FROM", u "bot@example.org");
           (u "MAIL_TO", u " ann@example.org, ,bo@example.org ,") ].

(** A clock whose [n]-th reading is [n] seconds after [start]'s minute. *)
Definition clock_from (start : datetime) (n : nat) : datetime :=
  mk_datetime (year start) (month start) (day start) (hour start)
              (minute start) (Z.of_nat n) 0 None.

(** A world: the page text, the state file, and whether mail works. *)
Definition world (page : result text) (f : option text) (start : datetime)
           (mail : nat -> Delivery -> option exn) : World :=
  mk_world (fun _ => page) f env0 (clock_from start) 0 mail [] [].

Definition noon : datetime := mk_datetime 2024 5 17 12 0 0 0 None.

(** Pages, mail servers and state files of the scenarios below. *)
Definition page_in_stock : text := u "<p>På lager ✅</p>".
Definition page_sold_out : text := u "Udsolgt ... Læg i kurv".
Definition page_blank : text := u "<html>404</html>".

Definition mail_ok : nat -> Delivery -> option exn := fun _ _ => None.
Definition mail_down : nat -> Delivery -> option exn :=
  fun _ _ => Some DeliveryError.
Definition mail_second_down : nat -> Delivery -> option exn :=
  fun n _ => match n with O => None | S _ => Some DeliveryError end.

Definition state_dict (la : pyval) (ts : pyval) : dict :=
  [ (u "last_available", la); (u "last_status_email_utc", ts) ].

Definition state_file (la : pyval) (ts : pyval) : option text :=
  Some (Json.dumps (PDict (state_dict la ts)) ++ nl).

(** The subjects of the messages handed to the mail library, in order. *)
Definition subjects (w : World) : list text :=
  map (fun x => Subject (msg (fst x))) (smtp_log w).

(** The first delivery of a run, for naming it. *)
Definition nth_send (n : nat) (w : World) : Delivery :=
  fst (nth n (smtp_log w)
           (mk_delivery [] 0 [] [] (mk_message [] [] [] []), None)).

Definition recent : pyval := PStr (u "2024-05-17T11:00:00+00:00").

(** What a run shows: how it ends, the subjects sent, the file it leaves. *)
Definition observe (w : World) : result unit * list text * option text :=
  let r := main w in (fst r, subjects (snd r), file (snd r)).

End Run.

(* ================================================================= *)
(** * Properties *)

(** ** Text *)

Module TextFacts.

Lemma text_eqb_eq a b : text_eqb a b = true <-> a = b.
Proof.
  unfold text_eqb. destruct (list_eq_dec N.eq_dec a b); intuition congruence.
Qed.

Lemma text_eqb_refl a : text_eqb a a = true.
Proof. now apply text_eqb_eq. Qed.

Lemma replace_app old new a b :
  replace old new (a ++ b) = replace old new a ++ replace old new b.
Proof. unfold replace. apply flat_map_app. Qed.

Lemma replace_absent old new s :
  forallb (fun c => negb (c =? old)%N) s = true -> replace old new s = s.
Proof.
  unfold replace. induction s as [|c s IH]; [reflexivity|].
  cbn [forallb flat_map]. rewrite andb_true_iff. intros [Hc Hs].
  apply negb_true_iff in Hc. rewrite Hc, (IH Hs). reflexivity.
Qed.

(** Nothing but leading white space is removed by [lstrip]. *)
Lemma lstrip_prefix s :
  exists a, s = a ++ lstrip s /\ forallb isspace a = true.
Proof.
  induction s as [|c r [a [E F]]]; simpl.
  - exists []. auto.
  - destruct (isspace c) eqn:Hc.
    + exists (c :: a). simpl. rewrite Hc, F. split; [congruence | reflexivity].
    + exists []. auto.
Qed.

Lemma lstrip_head s c r : lstrip s = c :: r -> isspace c = false.
Proof.
  induction s as [|x s IH]; simpl; [discriminate|].
  destruct (isspace x) eqn:Hx; [exact IH|].
  intros E. injection E as -> _. exact Hx.
Qed.

Lemma lstrip_fixed c r : isspace c = false -> lstrip (c :: r) = c :: r.
Proof. intros H. simpl. now rewrite H. Qed.

Lemma rstrip_suffix s :
  exists b, s = rstrip s ++ b /\ forallb isspace b = true.
Proof.
  unfold rstrip. destruct (lstrip_prefix (rev s)) as [a [E F]].
  exists (rev a). split.
  - rewrite <- rev_app_distr, <- E. symmetry. apply rev_involutive.
  - rewrite forallb_forall in *. intros x Hx. apply F. now apply in_rev.
Qed.

Lemma rstrip_last s r c : rstrip s = r ++ [c] -> isspace c = false.
Proof.
  unfold rstrip. intros E.
  apply (f_equal (@rev _)) in E. rewrite rev_involutive, rev_app_distr in E.
  simpl in E. eapply lstrip_head. exact E.
Qed.

(** [rstrip] keeps the first character of a text that it does not empty. *)
Lemma rstrip_head s c r c' r' :
  s = c :: r -> rstrip s = c' :: r' -> c' = c.
Proof.
  intros Es Er. destruct (rstrip_suffix s) as [b [E _]].
  rewrite Er, Es in E. simpl in E. congruence.
Qed.

(** [strip] removes white space at both ends and nothing else. *)
Lemma strip_factor s :
  exists a b, s = a ++ strip s ++ b
              /\ forallb isspace a = true /\ forallb isspace b = true.
Proof.
  unfold strip. destruct (lstrip_prefix s) as [a [Ea Fa]].
  destruct (rstrip_suffix (lstrip s)) as [b [Eb Fb]].
  exists a, b. repeat split; auto. now rewrite <- Eb.
Qed.

Lemma strip_head s c r : strip s = c :: r -> isspace c = false.
Proof.
  unfold strip. intros E. destruct (lstrip s) as [|x t] eqn:El.
  - discriminate E.
  - rewrite (rstrip_head eq_refl E). eapply lstrip_head; eauto.
Qed.

Lemma strip_last s r c : strip s = r ++ [c] -> isspace c = false.
Proof. unfold strip. apply rstrip_last. Qed.

Lemma lstrip_rev_fixed s c :
  isspace c = false -> lstrip (rev (s ++ [c])) = rev (s ++ [c]).
Proof. intros H. rewrite rev_app_distr. simpl. now rewrite H. Qed.

(** A text without white space at either end is left as it is. *)
Lemma strip_fixed s :
  (forall c r, s = c :: r -> isspace c = false) ->
  (forall r c, s = r ++ [c] -> isspace c = false) ->
  strip s = s.
Proof.
  intros Hh Hl. unfold strip. destruct s as [|c r]; [reflexivity|].
  rewrite lstrip_fixed by (eapply Hh; reflexivity).
  destruct (exists_last (l := c :: r)) as [r' [x E]]; [discriminate|].
  unfold rstrip. rewrite E, lstrip_rev_fixed by (eapply Hl; exact E).
  apply rev_involutive.
Qed.

Lemma strip_idempotent s : strip (strip s) = strip s.
Proof.
  apply strip_fixed; intros; [eapply strip_head | eapply strip_last]; eauto.
Qed.

(** [split] cuts at every separator and only there. *)
Lemma split_nonempty sep s : split sep s <> [].
Proof.
  destruct s as [|c r]; simpl; [discriminate|].
  destruct (N.eqb c sep); [discriminate|].
  destruct (split sep r); discriminate.
Qed.


Lemma split_no_sep sep s : Forall (fun p => ~ In sep p) (split sep s).
Proof.
  induction s as [|c r IH]; simpl.
  - constructor; auto.
  - destruct (N.eqb_spec c sep) as [->|Hne].
    + constructor; auto.
    + destruct (split sep r) as [|h t]; constructor.
      * simpl. intuition.
      * constructor.
      * inversion IH; subst. simpl. intuition.
      * now inversion IH.
Qed.

End TextFacts.

(** ** JSON: what [dumps] prints, [loads] reads back *)

Module JsonFacts.
Local Open Scope N_scope.

Lemma below_32 (P : N -> Prop) :
  (forall n, (n < 32)%nat -> P (N.of_nat n)) -> forall c, c < 32 -> P c.
Proof.
  intros H c Hc. rewrite <- (N2Nat.id c). apply H. lia.
Qed.

(** Reading back one escaped character. *)
Lemma scanstring_escape c t :
  scanstring (escape_char c ++ t) = cons_str c (scanstring t).
Proof.
  unfold escape_char.
  destruct (N.eqb_spec c 34) as [->|H34]; [reflexivity|].
  destruct (N.eqb_spec c 92) as [->|H92]; [reflexivity|].
  destruct (N.eqb_spec c 8) as [->|H8]; [reflexivity|].
  destruct (N.eqb_spec c 12) as [->|H12]; [reflexivity|].
  destruct (N.eqb_spec c 10) as [->|H10]; [reflexivity|].
  destruct (N.eqb_spec c 13) as [->|H13]; [reflexivity|].
  destruct (N.eqb_spec c 9) as [->|H9]; [reflexivity|].
  destruct (N.ltb_spec c 0x20) as [Hlt|Hge].
  - revert c Hlt H34 H92 H8 H12 H10 H13 H9.
    apply (below_32 (fun c => _ -> _ -> _ -> _ -> _ -> _ -> _ -> _)).
    intros n Hn.
    do 32 (destruct n as [|n]; [intros; reflexivity|]). lia.
  - simpl.
    destruct (N.eqb_spec c 34); [contradiction|].
    destruct (N.eqb_spec c 92); [contradiction|].
    destruct (N.ltb_spec c 0x20); [lia|]. reflexivity.
Qed.

Lemma scanstring_encode s rest :
  scanstring (flat_map escape_char s ++ 34 :: rest) = Ok (s, rest).
Proof.
  induction s as [|c s IH]; simpl; [reflexivity|].
  rewrite <- app_assoc, scanstring_escape, IH. reflexivity.
Qed.

Lemma scan_once_scalar f lvl v rest :
  scalar v = true ->
  scan_once (S f) (encode lvl v ++ rest) = Ok (v, rest).
Proof.
  destruct v as [|[|]| |s| |]; try discriminate; intros _; try reflexivity.
  cbn -[scanstring flat_map]. rewrite <- app_assoc. cbn -[scanstring flat_map].
  now rewrite scanstring_encode.
Qed.

Lemma skip_ws_scalar lvl v rest :
  scalar v = true -> skip_ws (encode lvl v ++ rest) = encode lvl v ++ rest.
Proof.
  destruct v as [|[|]| |s| |]; try discriminate; intros _; reflexivity.
Qed.

Lemma object_member f k v lvl tail :
  scalar v = true ->
  object_members (S (S f)) (member lvl (k, v) ++ tail) =
  match skip_ws tail with
  | c :: r =>
    if c =? ch "}" then Ok ([(k, v)], r)
    else if c =? ch "," then
      match object_members (S f) (skip_ws r) with
      | Ok (ps, rest) => Ok ((k, v) :: ps, rest)
      | Raise e => Raise e
      end
    else Raise JSONDecodeError
  | [] => Raise JSONDecodeError
  end.
Proof.
  intros Hv. unfold member, encode_basestring. cbn [fst snd].
  cbn -[scanstring flat_map scan_once skip_ws encode].
  repeat rewrite <- app_assoc.
  cbn -[scanstring flat_map scan_once skip_ws encode].
  rewrite scanstring_encode.
  cbn -[scanstring flat_map scan_once encode].
  rewrite skip_ws_scalar by exact Hv. rewrite scan_once_scalar by exact Hv.
  reflexivity.
Qed.

Lemma join_cons2 sep (a b : text) l :
  join sep (a :: b :: l) = a ++ sep ++ join sep (b :: l).
Proof. reflexivity. Qed.

Lemma members_text_quote kv d tail :
  exists r, members_text (kv :: d) ++ tail = 34 :: r.
Proof.
  unfold members_text, member, encode_basestring.
  destruct d; cbn -[flat_map encode u]; eauto.
Qed.

Lemma object_members_flat d : forall f rest,
  d <> [] -> flat d = true ->
  object_members (S (List.length d + f))
    (members_text d ++ newline_indent 0 ++ ch "}" :: rest) = Ok (d, rest).
Proof.
  induction d as [|[k v] d IH]; intros f rest Hne Hflat; [contradiction|].
  cbn [flat forallb snd] in Hflat. apply andb_prop in Hflat as [Hv Hd].
  destruct d as [|kv' d'].
  - unfold members_text. cbn [map join List.length Nat.add].
    rewrite object_member by exact Hv. reflexivity.
  - unfold members_text in *.
    change (map (member 1) ((k, v) :: kv' :: d'))
      with (member 1 (k, v) :: member 1 kv' :: map (member 1) d').
    rewrite join_cons2.
    change (member 1 kv' :: map (member 1) d') with (map (member 1) (kv' :: d')).
    rewrite <- !app_assoc. rewrite <- app_comm_cons.
    change (S (List.length ((k, v) :: kv' :: d') + f))
      with (S (S (List.length (kv' :: d') + f))).
    rewrite object_member by exact Hv.
    specialize (IH f rest ltac:(discriminate) Hd).
    destruct (members_text_quote kv' d' (newline_indent 0 ++ ch "}" :: rest)) as [r Hr].
    unfold members_text in Hr.
    remember (join (ch "," :: newline_indent 1) (map (member 1) (kv' :: d'))
              ++ newline_indent 0 ++ ch "}" :: rest) as body eqn:Eb.
    rewrite Hr. change (newline_indent 1 ++ 34 :: r) with (10 :: 32 :: 32 :: 34 :: r).
    cbn -[object_members List.length Nat.add]. rewrite <- Hr, IH. reflexivity.
Qed.

Lemma dict_set_fresh d k v :
  ~ In k (map fst d) -> dict_set d k v = d ++ [(k, v)].
Proof.
  induction d as [|[k' v'] d IH]; simpl; intros H; [reflexivity|].
  destruct (text_eqb k' k) eqn:E.
  - apply TextFacts.text_eqb_eq in E. tauto.
  - rewrite IH; tauto.
Qed.

Lemma fold_pairs_from ps : forall acc,
  NoDup (map fst (acc ++ ps)) ->
  fold_left (fun d kv => dict_set d (fst kv) (snd kv)) ps acc = acc ++ ps.
Proof.
  induction ps as [|[k v] ps IH]; intros acc H; simpl.
  - now rewrite app_nil_r.
  - rewrite dict_set_fresh.
    + rewrite IH; rewrite <- app_assoc; [reflexivity | exact H].
    + rewrite map_app in H. simpl in H. apply NoDup_remove_2 in H.
      intros Hin. apply H. apply in_or_app. now left.
Qed.

Lemma fold_pairs_distinct d : NoDup (map fst d) -> fold_pairs d = d.
Proof. intros H. unfold fold_pairs. now rewrite fold_pairs_from. Qed.

Lemma members_text_length d : (List.length d <= List.length (members_text d))%nat.
Proof.
  unfold members_text. induction d as [|kv d IH]; [apply Nat.le_refl|].
  cbn [map join]. destruct (map (member 1) d) eqn:E.
  - destruct d; [|discriminate]. unfold member, encode_basestring. simpl. lia.
  - rewrite !length_app. unfold member at 1, encode_basestring. simpl in *. lia.
Qed.

(** A dict of scalars with distinct keys is read back as it was written. *)
Lemma loads_dumps_flat d :
  flat d = true -> NoDup (map fst d) ->
  loads (dumps (PDict d) ++ nl) = Ok (PDict d).
Proof.
  intros Hflat Hnd. destruct d as [|kv d]; [reflexivity|].
  unfold dumps. 
  change (encode 0 (PDict (kv :: d)))
    with (ch "{" :: newline_indent 1 ++ members_text (kv :: d)
          ++ newline_indent 0 ++ [ch "}"]).
  unfold loads.
  set (body := members_text (kv :: d) ++ newline_indent 0 ++ ch "}" :: nl).
  assert (Etxt : (ch "{" :: newline_indent 1 ++ members_text (kv :: d)
                  ++ newline_indent 0 ++ [ch "}"]) ++ nl
                 = 123 :: 10 :: 32 :: 32 :: body).
  { unfold body. cbn -[members_text]. rewrite <- !app_assoc. reflexivity. }
  rewrite Etxt. clear Etxt.
  match goal with
  | |- context [scan_once (S ?n) _] =>
    assert (Hlen : exists f, n = S (List.length (kv :: d) + f))
  end.
  { exists (3 + (List.length body - List.length (kv :: d)))%nat.
    assert (Hl : (List.length (kv :: d) <= List.length body)%nat).
    { unfold body. rewrite length_app.
      pose proof (members_text_length (kv :: d)). lia. }
    cbn [List.length] in *. lia. }
  destruct Hlen as [f ->].
  destruct (members_text_quote kv d (newline_indent 0 ++ ch "}" :: nl)) as [r Hr].
  fold body in Hr.
  cbn -[object_members members_text List.length body].
  rewrite Hr. cbn -[object_members members_text List.length body]. rewrite <- Hr.
  unfold body. rewrite object_members_flat; [|discriminate|exact Hflat].
  rewrite fold_pairs_distinct by exact Hnd. reflexivity.
Qed.

End JsonFacts.

(** ** Dates and times: [fromisoformat] reads what [isoformat] writes *)

Module DatetimeFacts.
Import Datetime.
Local Open Scope Z_scope.

Lemma digit_char_range n : (48 <= digit_char n <= 57)%N.
Proof.
  unfold digit_char. pose proof (Z.mod_pos_bound n 10 ltac:(lia)). lia.
Qed.

Lemma digit_digit_char n : digit (digit_char n) = Some (n mod 10).
Proof.
  unfold digit. pose proof (digit_char_range n) as [Hl Hu].
  apply N.leb_le in Hl, Hu. rewrite Hl, Hu. cbn [andb]. f_equal.
  unfold digit_char. pose proof (Z.mod_pos_bound n 10 ltac:(lia)). lia.
Qed.

Lemma number_pad2 n :
  0 <= n < 100 -> number 0 [digit_char (n / 10); digit_char n] = Some n.
Proof.
  intros H. cbn [number]. rewrite !digit_digit_char. f_equal.
  Z.div_mod_to_equations. lia.
Qed.

Lemma number_pad4 n :
  0 <= n < 10000 ->
  number 0 [digit_char (n / 1000); digit_char (n / 100);
            digit_char (n / 10); digit_char n] = Some n.
Proof.
  intros H. cbn [number]. rewrite !digit_digit_char. f_equal.
  Z.div_mod_to_equations. lia.
Qed.

Lemma number_pad6 n :
  0 <= n < 1000000 ->
  number 0 [digit_char (n / 100000); digit_char (n / 10000);
            digit_char (n / 1000); digit_char (n / 100);
            digit_char (n / 10); digit_char n] = Some n.
Proof.
  intros H. cbn [number]. rewrite !digit_digit_char. f_equal.
  Z.div_mod_to_equations. lia.
Qed.

(** The time part ends at the first sign character. *)
Lemma split_tz_plus a z :
  forallb unsigned a = true ->
  split_tz (a ++ ch "+" :: z) = (a, Some (false, z)).
Proof.
  induction a as [|c a IH]; [reflexivity|].
  cbn [forallb app split_tz]. rewrite andb_true_iff. intros [Hc Ha].
  unfold unsigned in Hc. apply andb_prop in Hc as [H1 H2].
  apply negb_true_iff in H1, H2. rewrite H1, H2, (IH Ha). reflexivity.
Qed.

Lemma unsigned_digit n : unsigned (digit_char n) = true.
Proof.
  unfold unsigned. pose proof (digit_char_range n) as [Hl Hu].
  destruct (N.eqb_spec (digit_char n) (ch "+")) as [E|_];
    [rewrite E in Hl; vm_compute in Hl; now elim Hl|].
  destruct (N.eqb_spec (digit_char n) (ch "-")) as [E|_];
    [rewrite E in Hl; vm_compute in Hl; now elim Hl|].
  reflexivity.
Qed.

(** A valid UTC time written by [isoformat] is read back by
    [fromisoformat]: the time stamp a run writes is one the next run can
    read. *)
Lemma fromisoformat_isoformat d :
  valid d = true -> utcoffset d = Some 0 ->
  fromisoformat (isoformat d) = Ok d.
Proof.
  destruct d as [y m dd h mi s us off]. cbn [utcoffset]. intros V ->.
  assert (B : (1 <= y <= 9999) /\ (1 <= m <= 12) /\ (1 <= dd <= 31)
              /\ (0 <= h <= 23) /\ (0 <= mi <= 59) /\ (0 <= s <= 59)
              /\ (0 <= us <= 999999)).
  { unfold valid in V. cbn [year month day hour minute second microsecond
                            utcoffset] in V.
    repeat (apply andb_prop in V as [V ?]).
    assert (days_in_month y m <= 31)
      by (unfold days_in_month;
          repeat match goal with |- context [if ?b then _ else _] => destruct b end;
          lia).
    lia. }
  destruct B as (By & Bm & Bd & Bh & Bmi & Bs & Bus).
  unfold isoformat, fromisoformat.
  cbn [year month day hour minute second microsecond utcoffset].
  change (format_offset (Some 0)) with (ch "+" :: u "00:00").
  unfold pad4, pad2. cbn [app].
  rewrite number_pad4, !number_pad2 by lia.
  change ((ch "-" =? ch "-")%N && (ch "-" =? ch "-")%N) with true. cbv iota.
  unfold parse_time.
  destruct (us =? 0) eqn:Eus.
  - apply Z.eqb_eq in Eus. subst us.
    cbn [app].
    match goal with
    | |- context [split_tz ?l] =>
      change l with
        ([digit_char (h / 10); digit_char h; ch ":"; digit_char (mi / 10);
          digit_char mi; ch ":"; digit_char (s / 10); digit_char s]
         ++ ch "+" :: u "00:00")
    end.
    rewrite split_tz_plus
      by (cbn [forallb]; rewrite !unsigned_digit; reflexivity).
    cbv iota beta zeta.
    cbn [parse_hh_mm_ss_ff]. rewrite !number_pad2 by lia.
    change (is_colon (ch ":") && is_colon (ch ":")) with true. cbv iota.
    change (parse_hh_mm_ss_ff (u "00:00")) with (Some (0, 0, 0, 0)).
    cbv iota beta.
    change (Nat.eqb (List.length (u "00:00")) 5) with true. cbn [orb].
    cbv iota beta zeta.
    change ((0 * 3600 + 0 * 60 + 0) * 1000000 + 0) with 0.
    rewrite V. reflexivity.
  - unfold pad6. cbn [app].
    match goal with
    | |- context [split_tz ?l] =>
      change l with
        ([digit_char (h / 10); digit_char h; ch ":"; digit_char (mi / 10);
          digit_char mi; ch ":"; digit_char (s / 10); digit_char s;
          ch "."; digit_char (us / 100000); digit_char (us / 10000);
          digit_char (us / 1000); digit_char (us / 100);
          digit_char (us / 10); digit_char us]
         ++ ch "+" :: u "00:00")
    end.
    rewrite split_tz_plus
      by (cbn [forallb]; rewrite !unsigned_digit; reflexivity).
    cbv iota beta zeta.
    cbn [parse_hh_mm_ss_ff]. rewrite !number_pad2, number_pad6 by lia.
    change (is_colon (ch ":") && is_colon (ch ":")) with true. cbv iota.
    change ((ch "." =? ch ".")%N) with true. cbv iota.
    change (parse_hh_mm_ss_ff (u "00:00")) with (Some (0, 0, 0, 0)).
    cbv iota beta.
    change (Nat.eqb (List.length (u "00:00")) 5) with true. cbn [orb].
    cbv iota beta zeta.
    change ((0 * 3600 + 0 * 60 + 0) * 1000000 + 0) with 0.
    rewrite V. reflexivity.
Qed.

Lemma isoformat_no_Z d :
  forallb (fun c => negb (c =? ch "Z")%N) (isoformat d) = true.
Proof.
  assert (Hd : forall n, negb (digit_char n =? ch "Z")%N = true).
  { intros n. pose proof (digit_char_range n) as [Hl Hu].
    destruct (N.eqb_spec (digit_char n) (ch "Z")) as [E|_]; [|reflexivity].
    rewrite E in Hu. vm_compute in Hu. now elim Hu. }
  unfold isoformat, format_offset, pad2, pad4, pad6.
  destruct (Z.eqb (microsecond d) 0); destruct (utcoffset d) as [o|];
    try (destruct (Z.ltb o 0));
    try (destruct ((_ =? 0) && (_ =? 0)));
    try (destruct (Z.eqb (Z.abs o mod 1000000) 0));
    cbn -[digit_char Z.div Z.modulo Z.abs N.eqb];
    rewrite ?forallb_app; cbn -[digit_char Z.div Z.modulo Z.abs N.eqb];
    rewrite ?Hd; reflexivity.
Qed.

(** [parse_iso] reads the time stamp [main] writes. *)
Lemma parse_iso_isoformat d :
  valid d = true -> utcoffset d = Some 0 ->
  parse_iso fromisoformat (PStr (isoformat d)) = Ok d.
Proof.
  intros V O. unfold parse_iso.
  rewrite TextFacts.replace_absent by apply isoformat_no_Z.
  now apply fromisoformat_isoformat.
Qed.

End DatetimeFacts.

(* ================================================================= *)
(** ** The script's functions *)

Section Properties.

Set Default Proof Using "Type".

Variable ci_eq : char -> char -> bool.
Variable py_int : text -> option Z.
Variable fromisoformat : text -> result datetime.

Notation ci_occurs := (ci_occurs ci_eq).
Notation re_search := (re_search ci_eq).
Notation match_here := (match_here ci_eq).
Notation any_match := (any_match ci_eq).
Notation detect_available := (detect_available ci_eq).
Notation parse_iso := (parse_iso fromisoformat).
Notation should_send_12h_status := (should_send_12h_status fromisoformat).
Notation send_email := (send_email py_int).
Notation smtp_config := (smtp_config py_int).
Notation main := (main ci_eq py_int fromisoformat).

(** *** The classifier *)

Lemma match_here_spec pat : forall s,
  match_here pat s = true <->
  exists mid post, s = mid ++ post /\ Forall2 (fun p c => ci_eq p c = true) pat mid.
Proof.
  induction pat as [|p pat IH]; intros s; simpl.
  - split; [|reflexivity]. intros _. exists [], s. split; [reflexivity|constructor].
  - destruct s as [|c s].
    + split; [discriminate|]. intros (mid & post & E & F).
      inversion F; subst. discriminate E.
    + rewrite andb_true_iff, IH. split.
      * intros (Hc & mid & post & -> & F). exists (c :: mid), post.
        split; [reflexivity|]. now constructor.
      * intros (mid & post & E & F). inversion F; subst.
        injection E as -> ->. eauto.
Qed.

(** [re.search] finds a pattern exactly when it occurs up to case. *)
Lemma re_search_spec pat s : re_search pat s = true <-> ci_occurs pat s.
Proof.
  unfold ci_occurs. split.
  - induction s as [|c s IH]; simpl; rewrite orb_true_iff; intros [H|H].
    + apply match_here_spec in H as (mid & post & E & F). exists [], mid, post. auto.
    + discriminate.
    + apply match_here_spec in H as (mid & post & E & F). exists [], mid, post. auto.
    + destruct (IH H) as (pre & mid & post & -> & F).
      exists (c :: pre), mid, post. auto.
  - intros (pre & mid & post & -> & F).
    induction pre as [|c pre IH]; simpl.
    + assert (H : match_here pat (mid ++ post) = true)
        by (apply match_here_spec; eauto).
      destruct (mid ++ post); simpl; rewrite H; reflexivity.
    + rewrite IH. apply orb_true_r.
Qed.

Lemma any_match_spec pats html :
  any_match pats html = true <-> exists pat, In pat pats /\ ci_occurs pat html.
Proof.
  induction pats as [|p pats IH]; simpl.
  - split; [discriminate | intros (? & [] & _)].
  - destruct (re_search p html) eqn:E.
    + split; [|reflexivity]. intros _. exists p. split; [now left|].
      now apply re_search_spec.
    + rewrite IH. split.
      * intros (pat & Hin & Ho). exists pat. auto.
      * intros (pat & [<-|Hin] & Ho); [|eauto].
        apply re_search_spec in Ho. congruence.
Qed.

(** The page is classified available exactly when no out-of-stock pattern
    occurs in it and some in-stock hint does. *)
Lemma detect_available_true_iff html :
  detect_available html = true <->
  (~ exists pat, In pat OUT_OF_STOCK_PATTERNS /\ ci_occurs pat html)
  /\ (exists pat, In pat IN_STOCK_HINTS /\ ci_occurs pat html).
Proof.
  unfold detect_available. rewrite <- !any_match_spec.
  destruct (any_match OUT_OF_STOCK_PATTERNS html);
    [|destruct (any_match IN_STOCK_HINTS html)].
  - split; [discriminate|]. intros [Ho _]. now elim Ho.
  - split; [|reflexivity]. intros _. split; [discriminate | reflexivity].
  - split; [discriminate|]. intros [_ Hi]. discriminate Hi.
Qed.

(** C2: a page in which an out-of-stock pattern occurs, in any case, is
    classified not available, whether or not an in-stock hint occurs in it
    too. *)
Theorem out_of_stock_pattern_wins html :
  (exists pat, In pat OUT_OF_STOCK_PATTERNS /\ ci_occurs pat html) ->
  detect_available html = false.
Proof.
  intros H. destruct (detect_available html) eqn:E; [|reflexivity].
  apply detect_available_true_iff in E. destruct E as [Ho _]. now elim Ho.
Qed.

(** C7: a page in which neither an out-of-stock pattern nor an in-stock hint
    occurs is classified not available. *)
Theorem no_signal_is_unavailable html :
  (forall pat, In pat OUT_OF_STOCK_PATTERNS -> ~ ci_occurs pat html) ->
  (forall pat, In pat IN_STOCK_HINTS -> ~ ci_occurs pat html) ->
  detect_available html = false.
Proof.
  intros _ Hhint. destruct (detect_available html) eqn:E; [|reflexivity].
  apply detect_available_true_iff in E as [_ (pat & Hin & Ho)].
  exfalso. exact (Hhint pat Hin Ho).
Qed.

(** *** Time stamps *)

(** C10: a time stamp that ends in [Z] is parsed as the same text ending in
    [+00:00] is: [parse_iso] hands [fromisoformat] the text with [+00:00] in
    place of the [Z], and the 12-hour test gives the same answer for both. *)
Theorem parse_iso_Z_suffix s now :
  parse_iso (PStr (s ++ u "Z"))
    = fromisoformat (replace (ch "Z") (u "+00:00") s ++ u "+00:00")
  /\ parse_iso (PStr (s ++ u "Z")) = parse_iso (PStr (s ++ u "+00:00"))
  /\ should_send_12h_status (PStr (s ++ u "Z")) now
     = should_send_12h_status (PStr (s ++ u "+00:00")) now.
Proof.
  assert (E : parse_iso (PStr (s ++ u "Z")) = parse_iso (PStr (s ++ u "+00:00"))).
  { unfold parse_iso. now rewrite !TextFacts.replace_app. }
  split; [|split; [exact E|]].
  - unfold parse_iso. now rewrite TextFacts.replace_app.
  - unfold should_send_12h_status. rewrite E.
    destruct s; reflexivity.
Qed.

(** *** The notifier *)

Lemma strip_filter_commute l :
  map strip (filter (fun r => nonempty (strip r)) l)
  = filter nonempty (map strip l).
Proof.
  induction l as [|e l IH]; simpl; [reflexivity|].
  destruct (nonempty (strip e)); simpl; now rewrite IH.
Qed.

(** [send_email] reads its configuration, then makes one delivery. *)
Lemma send_email_config subject body w :
  send_email subject body w =
  match smtp_config w with
  | Ok cfg => smtp_send (delivery_of cfg subject body) w
  | Raise e => (Raise e, w)
  end.
Proof.
  unfold send_email, smtp_config, bind, getenv, getenv_default, int, ret, raise.
  destruct (environ w (u "SMTP_HOST")); [|reflexivity].
  destruct (environ w (u "SMTP_PORT"));
    (match goal with |- context [py_int ?p] => destruct (py_int p) end;
     [|reflexivity]);
    (destruct (environ w (u "SMTP_USERNAME")); [|reflexivity]);
    (destruct (environ w (u "SMTP_PASSWORD")); [|reflexivity]);
    (destruct (environ w (u "MAIL_FROM")); [|reflexivity]);
    (destruct (environ w (u "MAIL_TO")); reflexivity).
Qed.

Lemma skipn_app_exact {A} (l x : list A) : skipn (List.length l) (l ++ x) = x.
Proof. induction l; simpl; auto. Qed.

Lemma sends_smtp_send d w :
  sends w (snd (smtp_send d w)) = [(d, mailer w (List.length (smtp_log w)) d)].
Proof.
  unfold sends, smtp_send.
  destruct (mailer w (List.length (smtp_log w)) d); simpl; apply skipn_app_exact.
Qed.

Lemma split_single sep s : ~ In sep s -> split sep s = [s].
Proof.
  induction s as [|c r IH]; [reflexivity|]. intros N. cbn [split].
  destruct (N.eqb_spec c sep) as [->|_]; [elim N; now left|].
  rewrite IH by (intros I; apply N; now right). reflexivity.
Qed.

Lemma split_app_sep sep a b :
  ~ In sep a -> split sep (a ++ sep :: b) = a :: split sep b.
Proof.
  induction a as [|c r IH]; intros N; cbn [app split].
  - now rewrite N.eqb_refl.
  - destruct (N.eqb_spec c sep) as [->|_]; [elim N; now left|].
    rewrite IH by (intros I; apply N; now right). reflexivity.
Qed.








(** *** The state store *)

Lemma escape_char_encodable c :
  utf8_encodable [c] = true -> utf8_encodable (escape_char c) = true.
Proof.
  intros Hc. unfold escape_char.
  repeat match goal with
         | |- context [N.eqb c ?k] => destruct (N.eqb c k); [reflexivity|]
         end.
  destruct (N.ltb_spec c 0x20) as [Hlt|_]; [|exact Hc].
  clear Hc. revert c Hlt. apply JsonFacts.below_32. intros n Hn.
  do 32 (destruct n as [|n]; [reflexivity|]). lia.
Qed.

Lemma escaped_encodable t :
  utf8_encodable t = true -> utf8_encodable (flat_map escape_char t) = true.
Proof.
  unfold utf8_encodable. induction t as [|c t IH]; [reflexivity|].
  change (flat_map escape_char (c :: t))
    with (escape_char c ++ flat_map escape_char t).
  cbn [forallb]. rewrite andb_true_iff. intros [Hc Ht].
  rewrite forallb_app. apply andb_true_intro. split; [|exact (IH Ht)].
  apply escape_char_encodable. unfold utf8_encodable. cbn [forallb].
  now rewrite Hc.
Qed.

Lemma encodable_app a b :
  utf8_encodable (a ++ b) = utf8_encodable a && utf8_encodable b.
Proof. apply forallb_app. Qed.

Lemma encodable_cons c a :
  utf8_encodable (c :: a) = utf8_encodable [c] && utf8_encodable a.
Proof. apply (encodable_app [c] a). Qed.

Lemma basestring_encodable t :
  utf8_encodable t = true -> utf8_encodable (encode_basestring t) = true.
Proof.
  intros H. unfold encode_basestring.
  rewrite encodable_cons, encodable_app, (escaped_encodable _ H). reflexivity.
Qed.

Lemma member_encodable kv :
  scalar (snd kv) = true -> strings_encodable kv ->
  utf8_encodable (Json.member 1 kv) = true.
Proof.
  intros Hs [Hk Hv]. unfold Json.member.
  rewrite !encodable_app, (basestring_encodable _ Hk).
  destruct (snd kv) as [|[|]| |s| |]; try discriminate; try reflexivity.
  cbn [encode]. rewrite (basestring_encodable _ (Hv s eq_refl)). reflexivity.
Qed.

Lemma members_encodable d :
  Json.flat d = true -> Forall strings_encodable d ->
  utf8_encodable (Json.members_text d) = true.
Proof.
  unfold Json.members_text, Json.flat.
  induction d as [|kv d IH]; [reflexivity|].
  cbn [forallb map]. rewrite andb_true_iff. intros [Hs Hd] HF.
  inversion HF as [|? ? Hkv HF']; subst.
  specialize (IH Hd HF'). pose proof (@member_encodable kv Hs Hkv) as Hm.
  destruct d as [|kv' d']; [exact Hm|].
  change (map (Json.member 1) (kv' :: d'))
    with (Json.member 1 kv' :: map (Json.member 1) d') in *.
  rewrite JsonFacts.join_cons2, !encodable_app, Hm.
  change (map (Json.member 1) (kv' :: d'))
    with (Json.member 1 kv' :: map (Json.member 1) d') in IH.
  rewrite IH. reflexivity.
Qed.

(** What [save_state] writes for a dict of scalars can be encoded when its
    strings can. *)
Lemma dumps_flat_encodable d :
  Json.flat d = true -> Forall strings_encodable d ->
  utf8_encodable (Json.dumps (PDict d) ++ nl) = true.
Proof.
  intros Hflat HF. destruct d as [|kv d]; [reflexivity|].
  unfold Json.dumps.
  change (encode 0 (PDict (kv :: d)))
    with (ch "{" :: newline_indent 1 ++ Json.members_text (kv :: d)
          ++ newline_indent 0 ++ [ch "}"]).
  rewrite encodable_app, encodable_cons, !encodable_app.
  rewrite (members_encodable Hflat HF). reflexivity.
Qed.

Lemma stock_state_encodable la ts :
  (forall t, ts = Some t -> utf8_encodable t = true) ->
  utf8_encodable (Json.dumps (stock_state la ts) ++ nl) = true.
Proof.
  intros H. unfold stock_state. apply dumps_flat_encodable.
  - destruct la as [[|]|], ts; reflexivity.
  - constructor; [|constructor; [|constructor]];
      (split; [reflexivity|]); cbn [snd]; intros s E.
    + destruct la as [[|]|]; discriminate E.
    + destruct ts as [t|]; [|discriminate E].
      injection E as <-. now apply H.
Qed.

Lemma stock_state_keys_distinct la ts :
  exists d, stock_state la ts = PDict d
            /\ Json.flat d = true /\ NoDup (map fst d).
Proof.
  unfold stock_state. eexists. split; [reflexivity|]. split.
  - destruct la as [[|]|], ts; reflexivity.
  - cbn [map fst]. constructor; [|constructor; [intros []|constructor]].
    intros [E|[]]. vm_compute in E. discriminate E.
Qed.

(** C5: saving a record and loading it gives the record back, whatever its
    availability (true, false or unset) and its time stamp (unset, or any
    text the file encoding can hold, as every time stamp is). *)
Theorem save_then_load_roundtrip la ts w :
  (forall t, ts = Some t -> utf8_encodable t = true) ->
  fst ((save_state (stock_state la ts) ;;; load_state) w)
  = Ok (stock_state la ts).
Proof.
  intros H. unfold bind, save_state, write_text.
  rewrite (stock_state_encodable la H).
  unfold load_state. cbn [file set_file].
  destruct (stock_state_keys_distinct la ts) as (d & -> & Hflat & Hnd).
  now rewrite JsonFacts.loads_dumps_flat.
Qed.

(** [isoformat] writes ASCII digits and punctuation only. *)
Lemma isoformat_encodable d : utf8_encodable (Datetime.isoformat d) = true.
Proof.
  assert (Hd : forall n, (Datetime.digit_char n <? 0xD800)%N = true).
  { intros n. unfold Datetime.digit_char. apply N.ltb_lt.
    pose proof (Z.mod_pos_bound n 10 ltac:(lia)). lia. }
  unfold Datetime.isoformat, Datetime.format_offset, Datetime.pad2,
    Datetime.pad4, Datetime.pad6, utf8_encodable.
  destruct (Z.eqb (microsecond d) 0); destruct (utcoffset d) as [o|];
    try (destruct (Z.ltb o 0));
    try (destruct ((_ =? 0)%Z && (_ =? 0)%Z));
    try (destruct (Z.eqb (Z.abs o mod 1000000) 0));
    cbn -[Datetime.digit_char Z.div Z.modulo Z.abs N.ltb];
    rewrite ?forallb_app; cbn -[Datetime.digit_char Z.div Z.modulo Z.abs N.ltb];
    rewrite ?Hd; reflexivity.
Qed.

(** *** Runs of [main] *)

Lemma load_state_world w : snd (load_state w) = w.
Proof. unfold load_state. destruct (file w); reflexivity. Qed.

Lemma main_fetch_fails w e :
  http w PRODUCT_URL = Raise e -> main w = (Raise e, w).
Proof. intros H. unfold main, bind, fetch_html. now rewrite H. Qed.

Lemma main_load_fails w html e :
  http w PRODUCT_URL = Ok html -> fst (load_state w) = Raise e ->
  main w = (Raise e, w).
Proof.
  intros H L. unfold main, bind, fetch_html. rewrite H.
  pose proof (load_state_world w) as W.
  destruct (load_state w) as [r w0]. cbn [fst snd] in *. now subst.
Qed.

Lemma main_not_dict w html state :
  http w PRODUCT_URL = Ok html -> fst (load_state w) = Ok state ->
  (forall st, state <> PDict st) ->
  main w = (Raise AttributeError, w).
Proof.
  intros H L N. unfold main, bind, fetch_html. rewrite H.
  pose proof (load_state_world w) as W.
  destruct (load_state w) as [r w0]. cbn [fst snd] in *. subst.
  destruct state; try reflexivity. now elim (N d).
Qed.

Lemma bind_ok {A B} (c : M A) (k : A -> M B) w a w' :
  c w = (Ok a, w') -> bind c k w = k a w'.
Proof. intros E. unfold bind. now rewrite E. Qed.

Lemma bind_raise {A B} (c : M A) (k : A -> M B) w e w' :
  c w = (Raise e, w') -> bind c k w = (Raise e, w').
Proof. intros E. unfold bind. now rewrite E. Qed.

Lemma bind_cases {A B} (c : M A) (k : A -> M B) w :
  bind c k w = match fst (c w) with
               | Ok a => k a (snd (c w))
               | Raise e => (Raise e, snd (c w))
               end.
Proof. unfold bind. destruct (c w) as [[a|e] w']; reflexivity. Qed.

Lemma datetime_now_eq w : datetime_now w = (Ok (now_of w), tick w).
Proof. reflexivity. Qed.

Lemma utc_now_iso_eq w :
  utc_now_iso w = (Ok (Datetime.isoformat (now_of w)), tick w).
Proof. reflexivity. Qed.

(** A run that fetched the page [html] and loaded the dict [st], written as
    a case analysis on what the mail library and the file system answer. *)
Lemma main_eq w html st :
  http w PRODUCT_URL = Ok html -> fst (load_state w) = Ok (PDict st) ->
  main w =
  let available := detect_available html in
  let last_available := dict_get st (u "last_available") in
  let last_sent := dict_get st (u "last_status_email_utc") in
  let now := now_of w in
  let w1 := tick w in
  let p1 := if available && is_not_True last_available
            then send_email RESTOCK_SUBJECT
                   (restock_body (Datetime.isoformat (now_of w1))) (tick w1)
            else (Ok tt, w1) in
  match fst p1 with
  | Raise e => (Raise e, snd p1)
  | Ok _ =>
    match should_send_12h_status last_sent now with
    | Raise e => (Raise e, snd p1)
    | Ok due =>
      let w2 := snd p1 in
      let p2 := if due
                then send_email STATUS_SUBJECT
                       (status_body available (Datetime.isoformat (now_of w2)))
                       (tick w2)
                else (Ok tt, w2) in
      match fst p2 with
      | Raise e => (Raise e, snd p2)
      | Ok _ =>
        let st1 := if due
                   then dict_set st (u "last_status_email_utc")
                                 (PStr (Datetime.isoformat now))
                   else st in
        let st2 := dict_set st1 (u "last_available") (PBool available) in
        let p3 := save_state (PDict st2) (snd p2) in
        match fst p3 with
        | Raise e => (Raise e, snd p3)
        | Ok _ => (Ok tt, log_stderr (snd p3) (available, last_available))
        end
      end
    end
  end.
Proof.
  intros H L. pose proof (load_state_world w) as W.
  assert (L' : load_state w = (Ok (PDict st), w)).
  { destruct (load_state w); cbn [fst snd] in *; congruence. }
  cbv zeta. unfold main.
  rewrite bind_ok with (a := html) (w' := w) by (unfold fetch_html; now rewrite H).
  rewrite bind_ok with (a := PDict st) (w' := w) by exact L'.
  cbn [py_get].
  rewrite bind_ok with (a := dict_get st (u "last_available")) (w' := w) by reflexivity.
  rewrite bind_ok with (a := now_of w) (w' := tick w) by reflexivity.
  assert (Tail : forall w2 : World,
    (last_sent <- ret (dict_get st (u "last_status_email_utc"));;
     due <- lift (should_send_12h_status last_sent (now_of w));;
     state <-
     (if due : bool
      then
       checked <- utc_now_iso;;
       send_email STATUS_SUBJECT (status_body (detect_available html) checked);;;
       py_setitem (PDict st) (u "last_status_email_utc")
         (PStr (Datetime.isoformat (now_of w)))
      else ret (PDict st));;
     state0 <-
     py_setitem state (u "last_available") (PBool (detect_available html));;
     save_state state0;;;
     print_stderr (detect_available html) (dict_get st (u "last_available")))
      w2 =
    match should_send_12h_status (dict_get st (u "last_status_email_utc")) (now_of w) with
    | Raise e => (Raise e, w2)
    | Ok due =>
      let p2 := if due
                then send_email STATUS_SUBJECT
                       (status_body (detect_available html)
                          (Datetime.isoformat (now_of w2)))
                       (tick w2)
                else (Ok tt, w2) in
      match fst p2 with
      | Raise e => (Raise e, snd p2)
      | Ok _ =>
        let st1 := if due
                   then dict_set st (u "last_status_email_utc")
                                 (PStr (Datetime.isoformat (now_of w)))
                   else st in
        let st2 := dict_set st1 (u "last_available")
                            (PBool (detect_available html)) in
        let p3 := save_state (PDict st2) (snd p2) in
        match fst p3 with
        | Raise e => (Raise e, snd p3)
        | Ok _ => (Ok tt, log_stderr (snd p3)
                            (detect_available html,
                             dict_get st (u "last_available")))
        end
      end
    end).
  { intros w2.
    rewrite bind_ok with (a := dict_get st (u "last_status_email_utc")) (w' := w2)
      by reflexivity.
    rewrite bind_cases. unfold lift at 1 2. cbn [fst snd].
    destruct (should_send_12h_status _ (now_of w)) as [[|]|e]; [| |reflexivity].
    - cbv zeta. rewrite bind_cases.
      rewrite bind_ok with (a := Datetime.isoformat (now_of w2)) (w' := tick w2)
        by reflexivity.
      rewrite bind_cases.
      destruct (send_email STATUS_SUBJECT _ (tick w2)) as [[[]|e] w3];
        cbn [fst snd py_setitem ret]; [|reflexivity].
      rewrite bind_ok
        with (a := PDict (dict_set
                            (dict_set st (u "last_status_email_utc")
                                      (PStr (Datetime.isoformat (now_of w))))
                            (u "last_available")
                            (PBool (detect_available html))))
             (w' := w3) by reflexivity.
      rewrite bind_cases.
      destruct (save_state _ w3) as [[[]|e] w4]; reflexivity.
    - cbv zeta. rewrite bind_cases. cbn [fst snd py_setitem ret].
      rewrite bind_ok
        with (a := PDict (dict_set st (u "last_available")
                                   (PBool (detect_available html))))
             (w' := w2) by reflexivity.
      rewrite bind_cases.
      destruct (save_state _ w2) as [[[]|e] w4]; reflexivity. }
  rewrite bind_cases.
  destruct (detect_available html && is_not_True (dict_get st (u "last_available"))).
  - rewrite bind_ok
      with (a := Datetime.isoformat (now_of (tick w))) (w' := tick (tick w))
      by reflexivity.
    destruct (send_email RESTOCK_SUBJECT _ (tick (tick w))) as [[[]|e] w2];
      cbn [fst snd]; [|reflexivity].
    apply Tail.
  - cbn [fst snd ret]. apply Tail.
Qed.

Lemma smtp_config_env w w' :
  environ w' = environ w -> smtp_config w' = smtp_config w.
Proof. intros E. unfold smtp_config. now rewrite E. Qed.

Lemma subject_delivery_of cfg subject body :
  Subject (msg (delivery_of cfg subject body)) = subject.
Proof. destruct cfg as [[[[[? ?] ?] ?] ?] ?]. reflexivity. Qed.

Lemma subjects_differ : RESTOCK_SUBJECT <> STATUS_SUBJECT.
Proof. intros E. vm_compute in E. discriminate E. Qed.

Lemma restock_condition (available : bool) la :
  available && is_not_True la = true <-> available = true /\ la <> PBool true.
Proof.
  clear py_int fromisoformat.
  rewrite andb_true_iff. unfold is_not_True.
  destruct la as [|[|]| | | |]; intuition congruence.
Qed.

Lemma skipn_exact {A} (l : list A) : skipn (List.length l) l = [].
Proof. induction l; simpl; auto. Qed.

Ltac world_simpl :=
  cbn [smtp_log file ticks clock mailer environ http stderr
       log_send tick set_file log_stderr fst snd] in *.

Ltac sends_simpl :=
  unfold sends in *; world_simpl;
  rewrite <- ?app_assoc in *; rewrite ?skipn_app_exact, ?skipn_exact in *;
  cbn [app] in *.

(** In a world with a complete configuration [send_email] makes one
    delivery; the mail library's answer decides how it ends. *)
Lemma send_email_run subject body w cfg :
  smtp_config w = Ok cfg ->
  send_email subject body w =
  let d := delivery_of cfg subject body in
  let o := mailer w (List.length (smtp_log w)) d in
  (match o with None => Ok tt | Some e => Raise e end, log_send w d o).
Proof.
  intros C. rewrite send_email_config, C. unfold smtp_send. cbv zeta.
  destruct (mailer w (List.length (smtp_log w)) (delivery_of cfg subject body));
    reflexivity.
Qed.

Lemma save_state_run st w :
  save_state st w =
  let t := Json.dumps st ++ nl in
  (if utf8_encodable t then Ok tt else Raise UnicodeEncodeError,
   set_file w (Some (if utf8_encodable t then t else []))).
Proof.
  unfold save_state, write_text. cbv zeta.
  destruct (utf8_encodable (Json.dumps st ++ nl)); reflexivity.
Qed.

Ltac run_status C E Em :=
  match goal with
  | |- context [should_send_12h_status ?a ?b] =>
    destruct (should_send_12h_status a b) as [[|]|?]; [| |reflexivity]
  end;
  [ match goal with
    | |- context [send_email ?s ?b (tick ?w2)] =>
      rewrite (@send_email_run s b (tick w2) _)
        by (rewrite <- C; apply smtp_config_env; exact E)
    end;
    cbv zeta; world_simpl; rewrite Em;
    match goal with
    | |- context [mailer ?w ?n ?d] => destruct (mailer w n d)
    end; cbn [fst snd]; [reflexivity|];
    rewrite save_state_run; cbv zeta; cbn [fst snd];
    match goal with
    | |- context [utf8_encodable ?t] => destruct (utf8_encodable t)
    end; reflexivity
  | cbn [fst snd]; rewrite save_state_run; cbv zeta; cbn [fst snd];
    match goal with
    | |- context [utf8_encodable ?t] => destruct (utf8_encodable t)
    end; reflexivity ].

(** A run with a complete configuration, as a function of the answers of
    the mail library: the restock step, the status step, the persist step. *)
Lemma main_run w html st cfg :
  http w PRODUCT_URL = Ok html ->
  fst (load_state w) = Ok (PDict st) ->
  smtp_config w = Ok cfg ->
  main w =
  let available := detect_available html in
  let last_available := dict_get st (u "last_available") in
  let last_sent := dict_get st (u "last_status_email_utc") in
  let now := now_of w in
  let persist := fun (st1 : dict) (w3 : World) =>
    let st2 := dict_set st1 (u "last_available") (PBool available) in
    let t := Json.dumps (PDict st2) ++ nl in
    if utf8_encodable t
    then (Ok tt, log_stderr (set_file w3 (Some t)) (available, last_available))
    else (Raise UnicodeEncodeError, set_file w3 (Some [])) in
  let status := fun (w2 : World) =>
    match should_send_12h_status last_sent now with
    | Raise e => (Raise e, w2)
    | Ok false => persist st w2
    | Ok true =>
      let d2 := delivery_of cfg STATUS_SUBJECT
                  (status_body available (Datetime.isoformat (now_of w2))) in
      match mailer w (List.length (smtp_log w2)) d2 with
      | Some e => (Raise e, log_send (tick w2) d2 (Some e))
      | None =>
        persist (dict_set st (u "last_status_email_utc")
                          (PStr (Datetime.isoformat now)))
                (log_send (tick w2) d2 None)
      end
    end in
  if available && is_not_True last_available then
    let d1 := delivery_of cfg RESTOCK_SUBJECT
                (restock_body (Datetime.isoformat (now_of (tick w)))) in
    match mailer w (List.length (smtp_log w)) d1 with
    | Some e => (Raise e, log_send (tick (tick w)) d1 (Some e))
    | None => status (log_send (tick (tick w)) d1 None)
    end
  else status (tick w).
Proof.
  intros H L C. rewrite (@main_eq w html st H L). cbv zeta.
  destruct (detect_available html && is_not_True (dict_get st (u "last_available"))).
  - rewrite (@send_email_run _ _ (tick (tick w)) cfg) by exact C.
    cbv zeta.
    change (mailer (tick (tick w))) with (mailer w).
    change (smtp_log (tick (tick w))) with (smtp_log w).
    destruct (mailer w _ _); cbn [fst snd]; [reflexivity|].
    match goal with
    | |- context [log_send ?a ?b ?c] => remember (log_send a b c) as w2 eqn:Ew
    end.
    assert (E : environ w2 = environ w) by (subst w2; reflexivity).
    assert (Em : mailer w2 = mailer w) by (subst w2; reflexivity).
    clear Ew. run_status C E Em.
  - cbn [fst snd]. remember (tick w) as w2 eqn:Ew.
    assert (E : environ w2 = environ w) by (subst w2; reflexivity).
    assert (Em : mailer w2 = mailer w) by (subst w2; reflexivity).
    clear Ew. run_status C E Em.
Qed.

(** Decides whether a message with a given subject is in an explicit
    list of sends. *)
Ltac subject_absurd :=
  match goal with
  | Hs : Subject (msg (delivery_of _ _ _)) = _ |- _ =>
    rewrite subject_delivery_of in Hs;
    solve [ discriminate Hs
          | exfalso; apply subjects_differ; congruence ]
  end.

Ltac not_sent :=
  let d := fresh "d" in let o := fresh "o" in
  let Hin := fresh "Hin" in let Hs := fresh "Hs" in
  first [ intros (d & o & Hin & Hs) | intros (d & Hin & Hs) ];
  cbn [In] in Hin;
  repeat (destruct Hin as [Hin|Hin]; [injection Hin as <-; try subject_absurd|]);
  try contradiction.

Ltac is_sent d o :=
  first [ exists d, o | exists d ];
  (split; [cbn [In]; auto | apply subject_delivery_of]).

Theorem restock_alert_iff w html st cfg :
  http w PRODUCT_URL = Ok html ->
  fst (load_state w) = Ok (PDict st) ->
  smtp_config w = Ok cfg ->
  let due := detect_available html = true
             /\ dict_get st (u "last_available") <> PBool true in
  (attempted RESTOCK_SUBJECT w (snd (main w)) <-> due)
  /\ ((forall d, mailer w (List.length (smtp_log w)) d = None) ->
      (delivered RESTOCK_SUBJECT w (snd (main w)) <-> due)).
Proof.
  intros H L C due. subst due. rewrite <- restock_condition.
  rewrite (@main_run w html st cfg H L C). cbv zeta beta.
  unfold attempted, delivered.
  destruct (detect_available html && is_not_True (dict_get st (u "last_available"))).
  - set (d1 := delivery_of cfg RESTOCK_SUBJECT _).
    destruct (mailer w (List.length (smtp_log w)) d1) as [e1|] eqn:O1.
    + sends_simpl. split.
      * split; [reflexivity|]. intros _. is_sent d1 (Some e1).
      * intros Hm. rewrite Hm in O1. discriminate O1.
    + destruct (should_send_12h_status _ (now_of w)) as [[|]|e];
        [ match goal with
          | |- context [mailer w ?n ?d] => destruct (mailer w n d)
          end | | ];
        repeat match goal with
               | |- context [utf8_encodable ?t] => destruct (utf8_encodable t)
               end;
        sends_simpl;
        (split; [|intros _]; (split; [reflexivity|]); intros _;
         is_sent d1 (@None exn)).
  - destruct (should_send_12h_status _ (now_of w)) as [[|]|e];
      [ match goal with
        | |- context [mailer w ?n ?d] => destruct (mailer w n d)
        end | | ];
      repeat match goal with
             | |- context [utf8_encodable ?t] => destruct (utf8_encodable t)
             end;
      sends_simpl;
      (split; [|intros _]; (split; [not_sent|discriminate])).
Qed.

(** A run whose configuration is incomplete: the first [send_email] it
    reaches raises before anything is sent. *)
Lemma main_no_config w html st e :
  http w PRODUCT_URL = Ok html ->
  fst (load_state w) = Ok (PDict st) ->
  smtp_config w = Raise e ->
  main w =
  let available := detect_available html in
  let last_available := dict_get st (u "last_available") in
  if available && is_not_True last_available then (Raise e, tick (tick w))
  else
    match should_send_12h_status (dict_get st (u "last_status_email_utc"))
                                 (now_of w) with
    | Raise e' => (Raise e', tick w)
    | Ok true => (Raise e, tick (tick w))
    | Ok false =>
      let st2 := dict_set st (u "last_available") (PBool available) in
      let t := Json.dumps (PDict st2) ++ nl in
      if utf8_encodable t
      then (Ok tt, log_stderr (set_file (tick w) (Some t))
                              (available, last_available))
      else (Raise UnicodeEncodeError, set_file (tick w) (Some []))
    end.
Proof.
  intros H L C. rewrite (@main_eq w html st H L). cbv zeta.
  assert (S : forall subject body (w2 : World),
             environ w2 = environ w ->
             send_email subject body w2 = (Raise e, w2)).
  { intros subject body w2 E. rewrite send_email_config.
    rewrite (@smtp_config_env w w2 E), C. reflexivity. }
  destruct (detect_available html && is_not_True (dict_get st (u "last_available"))).
  - rewrite S by reflexivity. reflexivity.
  - cbn [fst snd].
    destruct (should_send_12h_status _ (now_of w)) as [[|]|e']; [| |reflexivity].
    + rewrite S by reflexivity. reflexivity.
    + cbn [fst snd]. rewrite save_state_run. cbv zeta. cbn [fst snd].
      destruct (utf8_encodable _); reflexivity.
Qed.

Lemma dict_get_set_same d k v : dict_get (dict_set d k v) k = v.
Proof.
  induction d as [|[k' v'] d IH]; simpl.
  - now rewrite TextFacts.text_eqb_refl.
  - destruct (text_eqb k' k) eqn:E; simpl; rewrite E; auto.
Qed.

Lemma dict_get_set_other d k v k' :
  k <> k' -> dict_get (dict_set d k v) k' = dict_get d k'.
Proof.
  intros N. induction d as [|[k0 v0] d IH]; simpl.
  - destruct (text_eqb k k') eqn:E; [|reflexivity].
    apply TextFacts.text_eqb_eq in E. contradiction.
  - destruct (text_eqb k0 k) eqn:E; simpl.
    + apply TextFacts.text_eqb_eq in E. subst k0.
      destruct (text_eqb k k') eqn:E'; [|reflexivity].
      apply TextFacts.text_eqb_eq in E'. contradiction.
    + now rewrite IH.
Qed.

Lemma state_keys_differ : u "last_available" <> u "last_status_email_utc".
Proof. intros E. vm_compute in E. discriminate E. Qed.

(** The 12-hour test on a time stamp that is unset or a non-empty string. *)
Lemma should_send_spec last_sent now :
  last_sent = PNone \/ (exists s, last_sent = PStr s /\ s <> []) ->
  (should_send_12h_status last_sent now = Ok true <->
   last_sent = PNone
   \/ exists last td, parse_iso last_sent = Ok last
                      /\ Datetime.sub now last = Ok td
                      /\ (12 * 3600 * 1000000 <= td)%Z).
Proof.
  intros [->|(s & -> & Hs)].
  - split; [now left | reflexivity].
  - unfold should_send_12h_status.
    destruct s as [|c s]; [contradiction|]. cbn [truthy nonempty negb].
    destruct (parse_iso (PStr (c :: s))) as [last|e] eqn:P.
    + destruct (Datetime.sub now last) as [td|e] eqn:D.
      * unfold Datetime.total_seconds_ge. split.
        -- intros E. right. exists last, td. injection E as E.
           apply Z.leb_le in E. repeat split; [exact D | lia].
        -- intros [E|(last' & td' & E1 & E2 & E3)]; [discriminate E|].
           injection E1 as <-. rewrite D in E2. injection E2 as <-. f_equal.
           apply Z.leb_le. lia.
      * split; [discriminate|].
        intros [E|(last' & td' & E1 & E2 & E3)]; [discriminate E|].
        injection E1 as <-. rewrite D in E2. discriminate E2.
    + split; [discriminate|].
      intros [E|(last' & td' & E1 & E2 & E3)]; discriminate.
Qed.

(** What a run that ends normally has done: it fetched a page, loaded a
    dict, made the sends its two tests ask for, each delivered, and wrote
    the updated dict. *)
Lemma completed_run w :
  fst (main w) = Ok tt ->
  exists html st (due : bool) l1 l2,
    http w PRODUCT_URL = Ok html
    /\ fst (load_state w) = Ok (PDict st)
    /\ should_send_12h_status (dict_get st (u "last_status_email_utc"))
                              (now_of w) = Ok due
    /\ persisted (snd (main w))
         (dict_set (if due
                    then dict_set st (u "last_status_email_utc")
                                  (PStr (Datetime.isoformat (now_of w)))
                    else st)
                   (u "last_available") (PBool (detect_available html)))
    /\ sends w (snd (main w)) = l1 ++ l2
    /\ (if detect_available html
           && is_not_True (dict_get st (u "last_available"))
        then exists d, l1 = [(d, None)] /\ Subject (msg d) = RESTOCK_SUBJECT
        else l1 = [])
    /\ (if due
        then exists d, l2 = [(d, None)] /\ Subject (msg d) = STATUS_SUBJECT
        else l2 = [])
    /\ stderr (snd (main w))
       = stderr w ++ [(detect_available html,
                       dict_get st (u "last_available"))].
Proof.
  intros Done.
  destruct (http w PRODUCT_URL) as [html|e] eqn:H;
    [|rewrite (@main_fetch_fails w _ H) in Done; discriminate Done].
  destruct (fst (load_state w)) as [state|e] eqn:L;
    [|rewrite (@main_load_fails w html _ H L) in Done; discriminate Done].
  destruct state as [| | | | |st];
    try (rewrite (@main_not_dict w html _ H L) in Done by discriminate;
         discriminate Done).
  exists html, st.
  remember (sends w (snd (main w))) as tr eqn:Etr.
  destruct (smtp_config w) as [cfg|e] eqn:C.
  - rewrite (@main_run w html st cfg H L C) in *. cbv zeta beta in *.
    unfold persisted.
    destruct (detect_available html && is_not_True (dict_get st (u "last_available"))).
    + match type of Done with
      | context [mailer w ?n ?d] => destruct (mailer w n d)
      end; [cbn [fst] in Done; discriminate Done|].
      destruct (should_send_12h_status _ (now_of w)) as [[|]|e];
        [ | | cbn [fst] in Done; discriminate Done ].
      * match type of Done with
        | context [mailer w ?n ?d] => destruct (mailer w n d)
        end; [cbn [fst] in Done; discriminate Done|].
        match type of Done with
        | context [utf8_encodable ?t] => destruct (utf8_encodable t)
        end; [|cbn [fst] in Done; discriminate Done].
        clear Done. sends_simpl. subst tr.
        exists true. eexists. eexists. cbv beta iota.
        do 4 (split; [reflexivity|]).
        split; [exact (eq_refl : [_; _] = [_] ++ [_])|].
        split; [|split]; try reflexivity;
          eexists; (split; [reflexivity | apply subject_delivery_of]).
      * match type of Done with
        | context [utf8_encodable ?t] => destruct (utf8_encodable t)
        end; [|cbn [fst] in Done; discriminate Done].
        clear Done. sends_simpl. subst tr.
        exists false. eexists. exists []. cbv beta iota.
        do 4 (split; [reflexivity|]).
        split; [exact (eq_refl : [_] = [_] ++ [])|].
        split; [|split]; try reflexivity;
          eexists; (split; [reflexivity | apply subject_delivery_of]).
    + destruct (should_send_12h_status _ (now_of w)) as [[|]|e];
        [ | | cbn [fst] in Done; discriminate Done ].
      * match type of Done with
        | context [mailer w ?n ?d] => destruct (mailer w n d)
        end; [cbn [fst] in Done; discriminate Done|].
        match type of Done with
        | context [utf8_encodable ?t] => destruct (utf8_encodable t)
        end; [|cbn [fst] in Done; discriminate Done].
        clear Done. sends_simpl. subst tr.
        exists true. exists []. eexists. cbv beta iota.
        do 4 (split; [reflexivity|]).
        split; [reflexivity|].
        split; [|split]; try reflexivity;
          eexists; (split; [reflexivity | apply subject_delivery_of]).
      * match type of Done with
        | context [utf8_encodable ?t] => destruct (utf8_encodable t)
        end; [|cbn [fst] in Done; discriminate Done].
        clear Done. sends_simpl. subst tr.
        exists false. exists []. exists []. cbv beta iota.
        do 4 (split; [reflexivity|]).
        repeat split; reflexivity.
  - rewrite (@main_no_config w html st e H L C) in *. cbv zeta beta in *.
    unfold persisted.
    destruct (detect_available html && is_not_True (dict_get st (u "last_available")));
      [cbn [fst] in Done; discriminate Done|].
    destruct (should_send_12h_status _ (now_of w)) as [[|]|e'];
      try (cbn [fst] in Done; discriminate Done).
    match type of Done with
    | context [utf8_encodable ?t] => destruct (utf8_encodable t)
    end; [|cbn [fst] in Done; discriminate Done].
    clear Done. sends_simpl. subst tr.
    exists false. exists []. exists []. cbv beta iota.
    do 4 (split; [reflexivity|]).
    repeat split; reflexivity.
Qed.

(** In a completed run the status message is delivered exactly when the
    12-hour test said so. *)
Lemma completed_status_delivered w l1 l2 (restock due : bool) :
  sends w (snd (main w)) = l1 ++ l2 ->
  (if restock
   then exists d, l1 = [(d, None)] /\ Subject (msg d) = RESTOCK_SUBJECT
   else l1 = []) ->
  (if due
   then exists d, l2 = [(d, None)] /\ Subject (msg d) = STATUS_SUBJECT
   else l2 = []) ->
  (delivered STATUS_SUBJECT w (snd (main w)) <-> due = true).
Proof.
  intros T R1 R2. unfold delivered. rewrite T. split.
  - intros (d & Hin & Hs). destruct due; [reflexivity|]. subst l2.
    rewrite app_nil_r in Hin. destruct restock; [|subst l1; destruct Hin].
    destruct R1 as (d1 & -> & Hs1). destruct Hin as [E|[]].
    injection E as ->. exfalso. apply subjects_differ. congruence.
  - intros ->. destruct R2 as (d & -> & Hs). exists d.
    split; [apply in_or_app; right; now left | exact Hs].
Qed.

(** With a mail library that delivers, the status message goes out
    exactly when the 12-hour test says so, however the run ends. *)
Lemma status_delivered_iff_due w html st cfg :
  http w PRODUCT_URL = Ok html ->
  fst (load_state w) = Ok (PDict st) ->
  smtp_config w = Ok cfg ->
  (forall n d, mailer w n d = None) ->
  (delivered STATUS_SUBJECT w (snd (main w)) <->
   should_send_12h_status (dict_get st (u "last_status_email_utc")) (now_of w)
   = Ok true).
Proof.
  intros H L C Hm.
  rewrite (@main_run w html st cfg H L C). cbv zeta beta.
  unfold delivered. rewrite !Hm.
  destruct (detect_available html && is_not_True (dict_get st (u "last_available")));
    (destruct (should_send_12h_status _ (now_of w)) as [[|]|e];
     repeat match goal with
            | |- context [utf8_encodable ?t] => destruct (utf8_encodable t)
            end;
     sends_simpl;
     (split; [try (intros _; reflexivity); not_sent
             | try discriminate; intros _;
               match goal with
               | |- context [(?d, None) :: nil] => is_sent d (@None exn)
               end])).
Qed.

(** C4: on a state whose time stamp is unset or a non-empty string, the
    status message is delivered exactly when the time stamp is unset or
    parses to a time at least twelve hours before [now], twelve hours
    included: so it is in every run whose mail library delivers, and in
    every run that ends normally.  A run that ends normally has then
    written [now] as the time stamp if the message went out, and the time
    stamp it loaded if not. *)
Theorem status_email_iff w html st cfg :
  http w PRODUCT_URL = Ok html ->
  fst (load_state w) = Ok (PDict st) ->
  smtp_config w = Ok cfg ->
  let last_sent := dict_get st (u "last_status_email_utc") in
  let now := now_of w in
  (last_sent = PNone \/ exists s, last_sent = PStr s /\ s <> []) ->
  let due := last_sent = PNone
             \/ exists last td, parse_iso last_sent = Ok last
                                /\ Datetime.sub now last = Ok td
                                /\ (12 * 3600 * 1000000 <= td)%Z in
  ((forall n d, mailer w n d = None) ->
   (delivered STATUS_SUBJECT w (snd (main w)) <-> due))
  /\ (fst (main w) = Ok tt ->
      (delivered STATUS_SUBJECT w (snd (main w)) <-> due)
      /\ exists st',
           persisted (snd (main w)) st'
           /\ (due -> dict_get st' (u "last_status_email_utc")
                      = PStr (Datetime.isoformat now))
           /\ (~ due -> dict_get st' (u "last_status_email_utc") = last_sent)).
Proof.
  intros H L C last_sent now Typed due.
  pose proof (@should_send_spec last_sent now Typed) as Spec. fold due in Spec.
  split.
  - intros Hm. rewrite <- Spec.
    exact (@status_delivered_iff_due w html st cfg H L C Hm).
  - intros Done.
    destruct (@completed_run w Done)
      as (html0 & st0 & b & l1 & l2 & H0 & L0 & S & P & T & R1 & R2 & _).
    rewrite L in L0. injection L0 as <-.
    fold last_sent now in S. rewrite S in Spec.
    assert (Hb : b = true <-> due).
    { rewrite <- Spec. split; congruence. }
    split.
    + rewrite <- Hb.
      exact (@completed_status_delivered w l1 l2 _ b T R1 R2).
    + exists (dict_set
                (if b
                 then dict_set st (u "last_status_email_utc")
                               (PStr (Datetime.isoformat (now_of w)))
                 else st)
                (u "last_available") (PBool (detect_available html0))).
      split; [exact P|].
      rewrite dict_get_set_other by exact state_keys_differ.
      split; intros Hd.
      * apply Hb in Hd. subst b. apply dict_get_set_same.
      * destruct b; [elim Hd; now apply Hb | reflexivity].
Qed.

(** C8: a run that ends normally has written a dict in which
    [last_available] is this run's classification, whatever was sent, and
    [last_status_email_utc] is [now] if the status message was delivered
    and the loaded value if not; the other keys are as loaded. *)
Theorem persist_overwrites_availability w :
  fst (main w) = Ok tt ->
  exists html st st',
    http w PRODUCT_URL = Ok html
    /\ fst (load_state w) = Ok (PDict st)
    /\ persisted (snd (main w)) st'
    /\ dict_get st' (u "last_available") = PBool (detect_available html)
    /\ (delivered STATUS_SUBJECT w (snd (main w)) ->
        dict_get st' (u "last_status_email_utc")
        = PStr (Datetime.isoformat (now_of w)))
    /\ (~ delivered STATUS_SUBJECT w (snd (main w)) ->
        dict_get st' (u "last_status_email_utc")
        = dict_get st (u "last_status_email_utc"))
    /\ (forall k, k <> u "last_available" -> k <> u "last_status_email_utc" ->
                  dict_get st' k = dict_get st k).
Proof.
  intros Done.
  destruct (@completed_run w Done)
    as (html & st & b & l1 & l2 & H & L & S & P & T & R1 & R2 & _).
  pose proof (@completed_status_delivered w l1 l2 _ b T R1 R2) as D.
  exists html, st. eexists.
  split; [exact H|]. split; [exact L|]. split; [exact P|].
  split; [apply dict_get_set_same|].
  rewrite dict_get_set_other by exact state_keys_differ.
  split; [|split].
  - intros Hd. apply D in Hd. subst b. apply dict_get_set_same.
  - intros Hd. destruct b; [elim Hd; now apply D | reflexivity].
  - intros k N1 N2. rewrite dict_get_set_other by congruence.
    destruct b; [|reflexivity]. apply dict_get_set_other. congruence.
Qed.

Ltac failed_send Hin :=
  sends_simpl; cbn [In] in Hin;
  repeat (destruct Hin as [Hin|Hin]);
  try contradiction; try discriminate Hin;
  injection Hin as <- <-;
  do 3 (split; [reflexivity|]);
  first [ exists []; split; [reflexivity | constructor]
        | eexists [_]; split; [reflexivity | repeat constructor] ].

(** C6: when a send raises, the run ends with that exception at that
    send: it is the last send of the run, the sends before it were
    delivered, the state file is as it was and nothing is printed. *)
Theorem send_failure_aborts w d e :
  In (d, Some e) (sends w (snd (main w))) ->
  fst (main w) = Raise e
  /\ file (snd (main w)) = file w
  /\ stderr (snd (main w)) = stderr w
  /\ exists pre, sends w (snd (main w)) = pre ++ [(d, Some e)]
                 /\ Forall (fun x => snd x = None) pre.
Proof.
  intros Hin.
  destruct (http w PRODUCT_URL) as [html|e0] eqn:H;
    [|rewrite (@main_fetch_fails w _ H) in *; sends_simpl; destruct Hin].
  destruct (fst (load_state w)) as [state|e0] eqn:L;
    [|rewrite (@main_load_fails w html _ H L) in *; sends_simpl; destruct Hin].
  destruct state as [| | | | |st];
    try (rewrite (@main_not_dict w html _ H L) in * by discriminate;
         sends_simpl; destruct Hin).
  destruct (smtp_config w) as [cfg|e0] eqn:C.
  - rewrite (@main_run w html st cfg H L C) in *. cbv zeta beta in *.
    destruct (detect_available html && is_not_True (dict_get st (u "last_available")));
      [ match type of Hin with
        | context [mailer w ?n ?d] => destruct (mailer w n d)
        end; [failed_send Hin|] | ];
      (destruct (should_send_12h_status _ (now_of w)) as [[|]|e1];
       [ match type of Hin with
         | context [mailer w ?n ?d] => destruct (mailer w n d)
         end; [failed_send Hin|] | | failed_send Hin ]);
      match type of Hin with
      | context [utf8_encodable ?t] => destruct (utf8_encodable t)
      end; failed_send Hin.
  - rewrite (@main_no_config w html st e0 H L C) in *. cbv zeta beta in *.
    exfalso.
    destruct (detect_available html && is_not_True (dict_get st (u "last_available")));
      [sends_simpl; destruct Hin|].
    destruct (should_send_12h_status _ (now_of w)) as [[|]|e1];
      try (sends_simpl; destruct Hin).
    match type of Hin with
    | context [utf8_encodable ?t] => destruct (utf8_encodable t)
    end; sends_simpl; destruct Hin.
Qed.

(** C1, as the code has it: without a state file [load_state] gives the
    default state; with a file that [json.loads] rejects it raises, and
    the run ends there, before any send and with the file as it was. *)
Theorem load_state_unparseable_raises w :
  (file w = None -> load_state w = (Ok default_state, w))
  /\ (forall t e, file w = Some t -> Json.loads t = Raise e ->
       load_state w = (Raise e, w)
       /\ forall html, http w PRODUCT_URL = Ok html -> main w = (Raise e, w)).
Proof.
  split.
  - intros F. unfold load_state. now rewrite F.
  - intros t e F P.
    assert (E : load_state w = (Raise e, w))
      by (unfold load_state; now rewrite F, P).
    split; [exact E|]. intros html H.
    apply (main_load_fails _ H). now rewrite E.
Qed.

(* ================================================================= *)
(** ** Further properties of the script *)

(** *** The classifier: the positive case *)

(** X1: a page is classified available exactly when none of the
    out-of-stock patterns occurs in it and at least one in-stock hint
    does. *)
Theorem available_iff_hint_and_no_marker html :
  detect_available html = true <->
  (forall pat, In pat OUT_OF_STOCK_PATTERNS -> ~ ci_occurs pat html)
  /\ (exists pat, In pat IN_STOCK_HINTS /\ ci_occurs pat html).
Proof.
  rewrite detect_available_true_iff. split; intros [Ho Hi]; (split; [|exact Hi]).
  - intros pat Hin Hocc. apply Ho. exists pat. now split.
  - intros (pat & Hin & Hocc). exact (Ho pat Hin Hocc).
Qed.

(** *** Runs that fail before the decisions *)

(** X2: when the page cannot be fetched the run ends with the fetch's
    exception and the world is as it was: the state file is not read, the
    clock is not read, nothing is sent, written or printed. *)
Theorem fetch_failure_aborts w e :
  http w PRODUCT_URL = Raise e -> main w = (Raise e, w).
Proof. exact (@main_fetch_fails w e). Qed.

(** X3: a state file that holds JSON other than an object is loaded
    without complaint, and the run then ends with [AttributeError] at the
    first [state.get], the world as it was. *)
Theorem non_object_state_aborts w html t v :
  http w PRODUCT_URL = Ok html ->
  file w = Some t ->
  Json.loads t = Ok v ->
  (forall d, v <> PDict d) ->
  load_state w = (Ok v, w) /\ main w = (Raise AttributeError, w).
Proof.
  intros H F P N.
  assert (L : load_state w = (Ok v, w)) by (unfold load_state; now rewrite F, P).
  split; [exact L|].
  apply (@main_not_dict w html v H); [now rewrite L | exact N].
Qed.

(** *** The sends of a run *)

(** The sends of a run that loaded a dict: the restock message if it is
    due, then the status message if it is due, each at most once. *)
Lemma run_sends_shape w html st :
  http w PRODUCT_URL = Ok html ->
  fst (load_state w) = Ok (PDict st) ->
  exists l1 l2,
    sends w (snd (main w)) = l1 ++ l2
    /\ (l1 = []
        \/ exists d o, l1 = [(d, o)] /\ Subject (msg d) = RESTOCK_SUBJECT
                       /\ detect_available html
                          && is_not_True (dict_get st (u "last_available"))
                          = true)
    /\ (l2 = []
        \/ exists d o, l2 = [(d, o)] /\ Subject (msg d) = STATUS_SUBJECT
                       /\ should_send_12h_status
                            (dict_get st (u "last_status_email_utc")) (now_of w)
                          = Ok true
                       /\ Forall (fun x => snd x = None) l1).
Proof.
  intros H L.
  remember (sends w (snd (main w))) as tr eqn:Etr.
  destruct (smtp_config w) as [cfg|e0] eqn:C.
  - rewrite (@main_run w html st cfg H L C) in Etr. cbv zeta beta in Etr.
    destruct (detect_available html && is_not_True (dict_get st (u "last_available")))
      eqn:R;
      [ match type of Etr with
        | context [mailer w ?n ?d] => destruct (mailer w n d)
        end | ];
      try (destruct (should_send_12h_status _ (now_of w)) as [[|]|e1] eqn:S;
           [ match type of Etr with
             | context [mailer w ?n ?d] => destruct (mailer w n d)
             end | | ]);
      repeat match type of Etr with
             | context [utf8_encodable ?t] => destruct (utf8_encodable t)
             end;
      sends_simpl; subst tr;
      match goal with
      | |- context [[(?a, ?oa); (?b, ?ob)] = _] =>
        exists [(a, oa)], [(b, ob)]; split; [reflexivity|]; split;
        [ right; exists a, oa; repeat split; apply subject_delivery_of
        | right; exists b, ob; repeat split;
          [apply subject_delivery_of | repeat constructor] ]
      | |- context [[(delivery_of _ RESTOCK_SUBJECT ?x, ?oa)] = _] =>
        exists [(delivery_of cfg RESTOCK_SUBJECT x, oa)], []; split;
        [reflexivity|]; split; [|now left];
        right; eexists; eexists; repeat split; apply subject_delivery_of
      | |- context [[(delivery_of _ STATUS_SUBJECT ?x, ?ob)] = _] =>
        exists [], [(delivery_of cfg STATUS_SUBJECT x, ob)]; split;
        [reflexivity|]; split; [now left|];
        right; eexists; eexists; repeat split;
        [apply subject_delivery_of | constructor]
      | |- _ => exists [], []; split; [reflexivity|]; split; now left
      end.
  - rewrite (@main_no_config w html st e0 H L C) in Etr. cbv zeta beta in Etr.
    exists [], []. split; [|split; now left]. subst tr.
    destruct (detect_available html && is_not_True (dict_get st (u "last_available")));
      [sends_simpl; reflexivity|].
    destruct (should_send_12h_status _ (now_of w)) as [[|]|e1];
      try (sends_simpl; reflexivity).
    match goal with
    | |- context [utf8_encodable ?t] => destruct (utf8_encodable t)
    end; sends_simpl; reflexivity.
Qed.

(** A run that did not load a dict leaves the world as it was. *)
Lemma run_without_state w :
  (forall html st, http w PRODUCT_URL = Ok html ->
                   fst (load_state w) <> Ok (PDict st)) ->
  exists e, main w = (Raise e, w).
Proof.
  intros N.
  destruct (http w PRODUCT_URL) as [html|e] eqn:H;
    [|exists e; exact (@main_fetch_fails w e H)].
  destruct (fst (load_state w)) as [state|e] eqn:L;
    [|exists e; exact (@main_load_fails w html e H L)].
  exists AttributeError. apply (@main_not_dict w html state H L).
  intros st E. subst state. exact (N html st eq_refl eq_refl).
Qed.

(** X4: whatever the world, a run hands at most two messages to the mail
    library: at most one restock message, then at most one status message,
    and the status message only after a restock message that was
    delivered. *)
Theorem at_most_two_sends_in_order w :
  exists l1 l2,
    sends w (snd (main w)) = l1 ++ l2
    /\ (l1 = [] \/ exists d o, l1 = [(d, o)]
                               /\ Subject (msg d) = RESTOCK_SUBJECT)
    /\ (l2 = [] \/ exists d o, l2 = [(d, o)]
                               /\ Subject (msg d) = STATUS_SUBJECT
                               /\ Forall (fun x => snd x = None) l1).
Proof.
  destruct (http w PRODUCT_URL) as [html|e] eqn:H.
  - destruct (fst (load_state w)) as [[| | | | |st]|e] eqn:L;
      try (destruct (@run_without_state w) as [e' E];
           [ intros html' st' _; rewrite L; discriminate
           | exists [], []; rewrite E; sends_simpl;
             split; [reflexivity | split; now left] ]).
    destruct (@run_sends_shape w html st H L) as (l1 & l2 & E & S1 & S2).
    exists l1, l2. split; [exact E|]. split.
    + destruct S1 as [->|(d & o & -> & Hs & _)]; [now left|].
      right. exists d, o. now split.
    + destruct S2 as [->|(d & o & -> & Hs & _ & Hf)]; [now left|].
      right. exists d, o. repeat split; assumption.
  - exists [], []. rewrite (@main_fetch_fails w e H). sends_simpl.
    split; [reflexivity | split; now left].
Qed.

(** *** What a run leaves behind *)

(** The effects of a run that loaded a dict on the file and on the
    diagnostics. *)
Lemma run_effects w html st :
  http w PRODUCT_URL = Ok html ->
  fst (load_state w) = Ok (PDict st) ->
  match fst (main w) with
  | Ok _ =>
    stderr (snd (main w))
    = stderr w ++ [(detect_available html, dict_get st (u "last_available"))]
  | Raise e =>
    stderr (snd (main w)) = stderr w
    /\ (file (snd (main w)) = file w
        \/ (e = UnicodeEncodeError /\ file (snd (main w)) = Some []))
  end.
Proof.
  intros H L.
  destruct (smtp_config w) as [cfg|e0] eqn:C.
  - rewrite (@main_run w html st cfg H L C). cbv zeta beta.
    destruct (detect_available html && is_not_True (dict_get st (u "last_available")));
      [ match goal with
        | |- context [mailer w ?n ?d] => destruct (mailer w n d)
        end | ];
      try (destruct (should_send_12h_status _ (now_of w)) as [[|]|e1];
           [ match goal with
             | |- context [mailer w ?n ?d] => destruct (mailer w n d)
             end | | ]);
      repeat match goal with
             | |- context [utf8_encodable ?t] => destruct (utf8_encodable t)
             end;
      world_simpl;
      first [ reflexivity
            | split; [reflexivity|]; first [ left; reflexivity
                                           | right; split; reflexivity ] ].
  - rewrite (@main_no_config w html st e0 H L C). cbv zeta beta.
    destruct (detect_available html && is_not_True (dict_get st (u "last_available")));
      [world_simpl; split; [reflexivity | left; reflexivity]|].
    destruct (should_send_12h_status _ (now_of w)) as [[|]|e1];
      try (world_simpl; split; [reflexivity | left; reflexivity]).
    match goal with
    | |- context [utf8_encodable ?t] => destruct (utf8_encodable t)
    end; world_simpl;
      first [ reflexivity | split; [reflexivity | right; split; reflexivity] ].
Qed.

(** X5: a run that ends with an exception leaves the state file as it was,
    whatever it sent before; the one exception is a state that cannot be
    encoded, where the final write has already emptied the file. *)
Theorem failing_run_keeps_state_file w e :
  fst (main w) = Raise e ->
  file (snd (main w)) = file w
  \/ (e = UnicodeEncodeError /\ file (snd (main w)) = Some []).
Proof.
  intros F.
  destruct (http w PRODUCT_URL) as [html|e0] eqn:H;
    [|rewrite (@main_fetch_fails w e0 H); now left].
  destruct (fst (load_state w)) as [[| | | | |st]|e0] eqn:L;
    try (destruct (@run_without_state w) as [e' E];
         [ intros html' st' _; rewrite L; discriminate
         | rewrite E; now left ]).
  pose proof (@run_effects w html st H L) as R. rewrite F in R. apply R.
Qed.

(** X6: the diagnostic line is printed exactly by the runs that end
    normally, once, and shows this run's classification and the
    [last_available] that was loaded. *)
Theorem diagnostic_iff_completed w :
  match fst (main w) with
  | Ok _ =>
    exists html st,
      http w PRODUCT_URL = Ok html
      /\ fst (load_state w) = Ok (PDict st)
      /\ stderr (snd (main w))
         = stderr w ++ [(detect_available html,
                         dict_get st (u "last_available"))]
  | Raise _ => stderr (snd (main w)) = stderr w
  end.
Proof.
  destruct (http w PRODUCT_URL) as [html|e0] eqn:H;
    [|rewrite (@main_fetch_fails w e0 H); reflexivity].
  destruct (fst (load_state w)) as [[| | | | |st]|e0] eqn:L;
    try (destruct (@run_without_state w) as [e' E];
         [ intros html' st' _; rewrite L; discriminate
         | rewrite E; reflexivity ]).
  pose proof (@run_effects w html st H L) as R.
  destruct (fst (main w)) as [[]|e]; [|apply R].
  exists html, st. repeat split; assumption.
Qed.

(** *** A time stamp that cannot be read *)

(** X7: when the 12-hour test raises (a time stamp that is not a string,
    that [fromisoformat] rejects, or that has no UTC offset), the run ends
    with that exception after the restock step: a restock message that was
    due has been delivered, no status message is sent, and the state file
    is as it was, so the next run meets the same state. *)
Theorem unreadable_stamp_aborts_after_restock w html st cfg e :
  http w PRODUCT_URL = Ok html ->
  fst (load_state w) = Ok (PDict st) ->
  smtp_config w = Ok cfg ->
  (forall n d, mailer w n d = None) ->
  should_send_12h_status (dict_get st (u "last_status_email_utc")) (now_of w)
  = Raise e ->
  fst (main w) = Raise e
  /\ file (snd (main w)) = file w
  /\ ~ attempted STATUS_SUBJECT w (snd (main w))
  /\ (delivered RESTOCK_SUBJECT w (snd (main w)) <->
      detect_available html = true
      /\ dict_get st (u "last_available") <> PBool true).
Proof.
  intros H L C Hm S. rewrite <- restock_condition.
  rewrite (@main_run w html st cfg H L C). cbv zeta beta.
  rewrite S, !Hm. unfold attempted, delivered.
  destruct (detect_available html && is_not_True (dict_get st (u "last_available")));
    sends_simpl; (split; [reflexivity|]); (split; [reflexivity|]);
    (split; [not_sent|]).
  - split; [reflexivity|]. intros _.
    match goal with
    | |- context [(?d, None) :: nil] => is_sent d (@None exn)
    end.
  - split; [not_sent | discriminate].
Qed.

(** X8: the three ways the 12-hour test treats a value that is not a
    usable time stamp.  A false value (unset, the empty string, zero,
    [false], an empty list or object) counts as never sent; any other value
    that is not a string raises [AttributeError]; a string whose time has
    no UTC offset raises [TypeError] against the run's zone-aware clock. *)
Theorem gating_on_unusable_stamps v now :
  (truthy v = false -> should_send_12h_status v now = Ok true)
  /\ (truthy v = true -> (forall s, v <> PStr s) ->
      should_send_12h_status v now = Raise AttributeError)
  /\ (forall s last o,
        v = PStr s -> s <> [] -> parse_iso v = Ok last ->
        utcoffset last = None -> utcoffset now = Some o ->
        should_send_12h_status v now = Raise TypeError).
Proof.
  unfold should_send_12h_status. split; [|split].
  - intros ->. reflexivity.
  - intros -> N. destruct v; try reflexivity. now elim (N s).
  - intros s last o -> Hs P Hl Hn. destruct s as [|c s]; [contradiction|].
    cbn [truthy nonempty negb]. rewrite P. unfold Datetime.sub.
    now rewrite Hn, Hl.
Qed.

(** *** What the messages say *)



(** *** The notifier's configuration *)

(** X9: [send_email] reads the whole configuration before it opens a
    session: when one of the five required variables is missing it raises
    and nothing is handed to the mail library.  The exception is the
    [KeyError] of a missing variable, or the [ValueError] of a port that is
    not a number, whichever the reading order meets first. *)
Theorem missing_variable_sends_nothing w name subject body :
  In name [u "SMTP_HOST"; u "SMTP_USERNAME"; u "SMTP_PASSWORD";
           u "MAIL_FROM"; u "MAIL_TO"] ->
  environ w name = None ->
  exists e,
    send_email subject body w = (Raise e, w)
    /\ (e = ValueError \/ exists n, e = KeyError n /\ environ w n = None).
Proof.
  intros Hin Hnone. rewrite send_email_config. unfold smtp_config.
  destruct (environ w (u "SMTP_HOST")) eqn:E1;
    [|eexists; split; [reflexivity | right; eexists; split; [reflexivity|exact E1]]].
  destruct (py_int _);
    [|eexists; split; [reflexivity | left; reflexivity]].
  destruct (environ w (u "SMTP_USERNAME")) eqn:E2;
    [|eexists; split; [reflexivity | right; eexists; split; [reflexivity|exact E2]]].
  destruct (environ w (u "SMTP_PASSWORD")) eqn:E3;
    [|eexists; split; [reflexivity | right; eexists; split; [reflexivity|exact E3]]].
  destruct (environ w (u "MAIL_FROM")) eqn:E4;
    [|eexists; split; [reflexivity | right; eexists; split; [reflexivity|exact E4]]].
  destruct (environ w (u "MAIL_TO")) eqn:E5;
    [|eexists; split; [reflexivity | right; eexists; split; [reflexivity|exact E5]]].
  exfalso. cbn [In] in Hin.
  destruct Hin as [<-|[<-|[<-|[<-|[<-|[]]]]]];
    [ rewrite E1 in Hnone | rewrite E2 in Hnone | rewrite E3 in Hnone
    | rewrite E4 in Hnone | rewrite E5 in Hnone ]; discriminate Hnone.
Qed.

(** X10: a run without a complete mail configuration hands nothing to the
    mail library.  It ends with the configuration's exception exactly when
    it has a message to send, and then leaves the state file as it was;
    with nothing to send it goes on to write the state. *)
Theorem unconfigured_run w html st e (due : bool) :
  http w PRODUCT_URL = Ok html ->
  fst (load_state w) = Ok (PDict st) ->
  smtp_config w = Raise e ->
  should_send_12h_status (dict_get st (u "last_status_email_utc")) (now_of w)
  = Ok due ->
  let restock :=
    detect_available html && is_not_True (dict_get st (u "last_available")) in
  sends w (snd (main w)) = []
  /\ (restock || due = true ->
      fst (main w) = Raise e /\ file (snd (main w)) = file w)
  /\ (restock || due = false ->
      fst (main w) = Ok tt \/ fst (main w) = Raise UnicodeEncodeError).
Proof.
  intros H L C S restock. subst restock.
  rewrite (@main_no_config w html st e H L C). cbv zeta beta. rewrite S.
  destruct (detect_available html && is_not_True (dict_get st (u "last_available"))).
  - sends_simpl. split; [reflexivity|]. split; [|discriminate].
    intros _. split; reflexivity.
  - cbn [orb]. destruct due.
    + sends_simpl. split; [reflexivity|]. split; [|discriminate].
      intros _. split; reflexivity.
    + match goal with
      | |- context [utf8_encodable ?t] => destruct (utf8_encodable t)
      end; sends_simpl; (split; [reflexivity|]); (split; [discriminate|]);
        intros _; [left | right]; reflexivity.
Qed.

(** *** Recipients *)

Lemma lstrip_blank s : forallb isspace s = true -> lstrip s = [].
Proof.
  induction s as [|c r IH]; [reflexivity|]. cbn [forallb lstrip].
  intros F. apply andb_prop in F as [Hc Hr]. rewrite Hc. now apply IH.
Qed.

Lemma strip_nil_iff s : strip s = [] <-> forallb isspace s = true.
Proof.
  split.
  - intros E. destruct (TextFacts.strip_factor s) as (a & b & Es & Fa & Fb).
    rewrite E in Es. rewrite Es. cbn [app]. rewrite forallb_app, Fa, Fb.
    reflexivity.
  - intros F. unfold strip. rewrite (lstrip_blank s F). reflexivity.
Qed.

Lemma strip_skip_space c s : isspace c = true -> strip (c :: s) = strip s.
Proof. intros H. unfold strip. cbn [lstrip]. now rewrite H. Qed.

Lemma filter_nonempty_nil (x : text) l :
  filter nonempty (x :: l) = [] <-> x = [] /\ filter nonempty l = [].
Proof.
  cbn [filter]. destruct x as [|c x]; cbn [nonempty].
  - split; [now split | now intros [_ E]].
  - split; [discriminate | intros [E _]; discriminate E].
Qed.

(** X11: the list of recipients is empty exactly when [MAIL_TO] holds
    nothing but commas and white space; the [To] header is then empty. *)
Theorem no_recipients_iff_blank mail_to :
  recipients_of mail_to = []
  <-> forallb (fun c => (c =? ch ",")%N || isspace c) mail_to = true.
Proof.
  clear ci_eq py_int fromisoformat.
  unfold recipients_of. rewrite strip_filter_commute.
  induction mail_to as [|c r IH]; [split; reflexivity|].
  cbn [split forallb].
  destruct (N.eqb_spec c (ch ",")) as [->|Hne].
  - cbn [map orb andb]. rewrite filter_nonempty_nil.
    change (strip []) with (@nil char). rewrite IH.
    split; [now intros [_ F] | now split].
  - cbn [orb]. pose proof (TextFacts.split_nonempty (ch ",") r) as Hn.
    destruct (split (ch ",") r) as [|h t]; [contradiction|].
    cbn [map] in *. rewrite filter_nonempty_nil in *.
    rewrite andb_true_iff, <- IH, !strip_nil_iff. cbn [forallb].
    rewrite andb_true_iff. tauto.
Qed.

Lemma recipients_skip_space c s :
  isspace c = true -> c <> ch "," -> recipients_of (c :: s) = recipients_of s.
Proof.
  intros Hs Hc. unfold recipients_of. rewrite !strip_filter_commute.
  cbn [split]. destruct (N.eqb_spec c (ch ",")) as [E|_]; [contradiction|].
  pose proof (TextFacts.split_nonempty (ch ",") s) as Hn.
  destruct (split (ch ",") s) as [|h t]; [contradiction|].
  cbn [map]. now rewrite strip_skip_space.
Qed.

(** A recipient: not empty, without comma, without white space at its
    ends. *)
Notation clean :=
  (fun r : text => r <> [] /\ ~ In (ch ",") r /\ strip r = r).

Lemma recipients_clean s : Forall clean (recipients_of s).
Proof.
  unfold recipients_of. rewrite strip_filter_commute.
  apply Forall_forall. intros r Hr.
  apply filter_In in Hr as [Hin Hne]. apply in_map_iff in Hin as (e & <- & He).
  split; [|split].
  - intros E. rewrite E in Hne. discriminate Hne.
  - pose proof (TextFacts.split_no_sep (ch ",") s) as F.
    rewrite Forall_forall in F. specialize (F e He).
    destruct (TextFacts.strip_factor e) as (a & b & Es & _).
    intros I. apply F. rewrite Es. apply in_or_app. right.
    apply in_or_app. now left.
  - apply TextFacts.strip_idempotent.
Qed.

Lemma recipients_of_join l :
  Forall clean l -> recipients_of (join (u ", ") l) = l.
Proof.
  induction l as [|r l IH]; [reflexivity|]. intros F.
  apply Forall_cons_iff in F as [(Hne & Hc & Hs) F].
  destruct l as [|r' l].
  - cbn [join]. unfold recipients_of. rewrite strip_filter_commute.
    rewrite (@split_single (ch ",") r Hc). cbn [map filter]. rewrite Hs.
    destruct r; [contradiction|reflexivity].
  - change (join (u ", ") (r :: r' :: l))
      with (r ++ ch "," :: 32%N :: join (u ", ") (r' :: l)).
    specialize (IH F).
    rewrite <- (@recipients_skip_space 32%N (join (u ", ") (r' :: l))) in IH
      by (vm_compute; first [reflexivity | discriminate]).
    unfold recipients_of in *. rewrite strip_filter_commute in *.
    rewrite (@split_app_sep (ch ",") r _ Hc). cbn [map filter]. rewrite Hs.
    destruct r; [contradiction|]. cbn [nonempty]. f_equal. exact IH.
Qed.

(** X12: the [To] header lists the recipients without loss: read again by
    the rule that reads [MAIL_TO], it gives the same recipients, and no
    recipient holds a comma or starts or ends with white space. *)
Theorem to_header_reads_back mail_to :
  recipients_of (join (u ", ") (recipients_of mail_to))
  = recipients_of mail_to
  /\ Forall (fun r => r <> [] /\ ~ In (ch ",") r /\ strip r = r)
            (recipients_of mail_to).
Proof.
  split; [apply recipients_of_join|]; apply recipients_clean.
Qed.

(** *** The 12-hour test over time *)

(** X13: once the status message is due it stays due: a later reading of
    the clock, in whatever zone, gives the same answer for the same time
    stamp. *)
Theorem due_stays_due v now now' o o' :
  utcoffset now = Some o -> utcoffset now' = Some o' ->
  (Datetime.local_us now - o <= Datetime.local_us now' - o')%Z ->
  should_send_12h_status v now = Ok true ->
  should_send_12h_status v now' = Ok true.
Proof.
  unfold should_send_12h_status, Datetime.sub, Datetime.total_seconds_ge.
  intros -> -> Le. destruct (negb (truthy v)); [reflexivity|].
  destruct (parse_iso v) as [last|e]; [|discriminate].
  destruct (utcoffset last) as [ol|]; [|discriminate].
  intros E. injection E as E. apply Z.leb_le in E. f_equal. apply Z.leb_le.
  lia.
Qed.

(** *** The state file across runs *)

Lemma dict_set_keys d k v :
  map fst (dict_set d k v) = map fst d
  \/ (~ In k (map fst d) /\ map fst (dict_set d k v) = map fst d ++ [k]).
Proof.
  induction d as [|[k' v'] d IH]; cbn [dict_set map fst app].
  - right. split; [intros []|reflexivity].
  - destruct (text_eqb k' k) eqn:E; [left; reflexivity|].
    cbn [map fst]. destruct IH as [->|[N ->]]; [left; reflexivity|].
    right. split; [|reflexivity]. intros [->|I]; [|contradiction].
    now rewrite TextFacts.text_eqb_refl in E.
Qed.

Lemma dict_set_distinct d k v :
  NoDup (map fst d) -> NoDup (map fst (dict_set d k v)).
Proof.
  intros N. destruct (dict_set_keys d k v) as [->|[Hn ->]]; [exact N|].
  apply NoDup_app; [exact N | constructor; [intros []|constructor] |].
  intros x Hx [<-|[]]. contradiction.
Qed.

Lemma dict_set_flat d k v :
  Json.flat d = true -> Json.scalar v = true -> Json.flat (dict_set d k v) = true.
Proof.
  unfold Json.flat. intros F S.
  induction d as [|[k' v'] d IH]; cbn [dict_set forallb snd] in *.
  - now rewrite S.
  - apply andb_prop in F as [F1 F2].
    destruct (text_eqb k' k); cbn [forallb snd].
    + now rewrite S, F2.
    + now rewrite F1, IH.
Qed.

(** X14: what [save_state] writes for a dict of scalars with distinct keys,
    [load_state] reads back as the same dict, whatever keys it holds; the
    file then holds the indented JSON text and a line break. *)
Theorem save_then_load_any_flat_dict d w :
  Json.flat d = true -> NoDup (map fst d) -> Forall strings_encodable d ->
  (save_state (PDict d) ;;; load_state) w
  = (Ok (PDict d), set_file w (Some (Json.dumps (PDict d) ++ nl))).
Proof.
  intros Hflat Hnd Henc. unfold bind, save_state, write_text.
  rewrite (dumps_flat_encodable Hflat Henc).
  unfold load_state. cbn [file set_file].
  now rewrite JsonFacts.loads_dumps_flat.
Qed.

(** X15: a state that cannot be encoded breaks the runs that follow: the
    write raises [UnicodeEncodeError] after the file was emptied, and a run
    that starts from the file it leaves ends at [load_state] with
    [JSONDecodeError], before it sends or writes anything. *)
Theorem unencodable_state_blocks_next_run st w w2 html :
  utf8_encodable (Json.dumps st ++ nl) = false ->
  file w2 = file (snd (save_state st w)) ->
  http w2 PRODUCT_URL = Ok html ->
  fst (save_state st w) = Raise UnicodeEncodeError
  /\ main w2 = (Raise JSONDecodeError, w2).
Proof.
  intros E F H. rewrite save_state_run in *. cbv zeta in *. rewrite E in *.
  cbn [fst snd file set_file] in F. split; [reflexivity|].
  apply (@main_load_fails w2 html JSONDecodeError H).
  unfold load_state. rewrite F. reflexivity.
Qed.

(** The keys of a dict that [json.loads] built are distinct. *)
Lemma fold_pairs_keys_distinct ps : NoDup (map fst (Json.fold_pairs ps)).
Proof.
  unfold Json.fold_pairs.
  assert (G : forall acc : dict,
             NoDup (map fst acc) ->
             NoDup (map fst (fold_left
                               (fun d kv => dict_set d (fst kv) (snd kv))
                               ps acc))).
  { induction ps as [|kv ps IH]; intros acc N; cbn [fold_left]; [exact N|].
    apply IH. now apply dict_set_distinct. }
  apply G. constructor.
Qed.

Lemma loads_cases t :
  Json.loads t = Raise JSONDecodeError
  \/ Json.loads t
     = match Json.scan_once (S (List.length t)) (Json.skip_ws t) with
       | Raise e => Raise e
       | Ok (v, rest) =>
         match Json.skip_ws rest with
         | [] => Ok v
         | _ :: _ => Raise JSONDecodeError
         end
       end.
Proof.
  destruct t as [|c r]; [right; reflexivity|].
  destruct (N.eq_dec c 0xFEFF) as [->|Hc]; [left; reflexivity|].
  right. unfold Json.loads. destruct c as [|p]; [reflexivity|].
  do 16 (destruct p as [p|p|]; try reflexivity).
Qed.

Lemma scan_once_keys_distinct f s st rest :
  Json.scan_once f s = Ok (PDict st, rest) -> NoDup (map fst st).
Proof.
  destruct f as [|f]; [discriminate|].
  destruct s as [|c r]; [discriminate|].
  cbn [Json.scan_once]. unfold Json.match_number.
  intros E.
  repeat match type of E with
         | context [if ?b then _ else _] => destruct b
         | context [match ?x with _ => _ end] => destruct x
         end;
    try discriminate E; injection E as <- _;
    first [ constructor | apply fold_pairs_keys_distinct ].
Qed.

Lemma load_state_keys_distinct w st :
  fst (load_state w) = Ok (PDict st) -> NoDup (map fst st).
Proof.
  unfold load_state. destruct (file w) as [t|]; cbn [fst].
  - destruct (loads_cases t) as [-> | ->]; [discriminate|].
    destruct (Json.scan_once _ _) as [[v rest]|e] eqn:S; [|discriminate].
    destruct (Json.skip_ws rest); [|discriminate].
    intros E. injection E as ->. exact (@scan_once_keys_distinct _ _ _ _ S).
  - intros E. injection E as <-. cbn [map fst].
    constructor; [|constructor; [intros []|constructor]].
    intros [E|[]]. vm_compute in E. discriminate E.
Qed.

(** The run that follows a completed run loads the dict that run wrote. *)
Lemma next_run_loads w w2 st :
  fst (main w) = Ok tt ->
  fst (load_state w) = Ok (PDict st) ->
  Json.flat st = true ->
  file w2 = file (snd (main w)) ->
  exists html (due : bool),
    http w PRODUCT_URL = Ok html
    /\ should_send_12h_status (dict_get st (u "last_status_email_utc"))
                              (now_of w) = Ok due
    /\ (delivered STATUS_SUBJECT w (snd (main w)) <-> due = true)
    /\ fst (load_state w2)
       = Ok (PDict (dict_set (if due
                              then dict_set st (u "last_status_email_utc")
                                            (PStr (Datetime.isoformat (now_of w)))
                              else st)
                             (u "last_available")
                             (PBool (detect_available html)))).
Proof.
  intros Done L Hflat F.
  pose proof (@load_state_keys_distinct w st L) as Hnd.
  destruct (@completed_run w Done)
    as (html & st0 & due & l1 & l2 & H & L0 & S & P & T & R1 & R2 & _).
  rewrite L in L0. injection L0 as <-.
  exists html, due. split; [exact H|]. split; [exact S|].
  split; [exact (@completed_status_delivered w l1 l2 _ due T R1 R2)|].
  unfold persisted in P. unfold load_state. rewrite F, P. cbn [fst].
  apply JsonFacts.loads_dumps_flat.
  - apply dict_set_flat; [|reflexivity].
    destruct due; [apply dict_set_flat; [exact Hflat|reflexivity] | exact Hflat].
  - apply dict_set_distinct.
    destruct due; [apply dict_set_distinct|]; exact Hnd.
Qed.

(** X16: the restock message is not repeated: after a run that ended
    normally on a page classified as available, the next run, starting
    from the file that run left, hands no restock message to the mail
    library, whatever page, clock and configuration it meets. *)
Theorem restock_not_repeated w w2 html st :
  fst (main w) = Ok tt ->
  http w PRODUCT_URL = Ok html ->
  detect_available html = true ->
  fst (load_state w) = Ok (PDict st) ->
  Json.flat st = true ->
  file w2 = file (snd (main w)) ->
  ~ attempted RESTOCK_SUBJECT w2 (snd (main w2)).
Proof.
  intros Done H A L Hflat F.
  destruct (@next_run_loads w w2 st Done L Hflat F)
    as (html0 & due & H0 & _ & _ & L2).
  rewrite H in H0. injection H0 as <-. rewrite A in L2.
  destruct (http w2 PRODUCT_URL) as [html2|e] eqn:H2.
  - destruct (@run_sends_shape w2 html2 _ H2 L2)
      as (l1 & l2 & T & R1 & R2).
    rewrite dict_get_set_same in R1. cbn [is_not_True] in R1.
    rewrite andb_false_r in R1.
    destruct R1 as [->|(d & o & _ & _ & R1)]; [|discriminate R1].
    unfold attempted. rewrite T. cbn [app].
    intros (d & o & Hin & Hs).
    destruct R2 as [->|(d2 & o2 & -> & Hs2 & _)]; [destruct Hin|].
    destruct Hin as [E|[]]. injection E as <- <-.
    apply subjects_differ. congruence.
  - rewrite (@main_fetch_fails w2 e H2). unfold attempted. sends_simpl.
    intros (d & o & [] & _).
Qed.

(** X17: the first run, without a state file, with a complete
    configuration and a mail library that delivers: it sends the status
    message, before it the restock message when the page is classified as
    available, ends normally and creates the state file with this run's
    classification and time. *)
Theorem first_run_without_state_file w html cfg :
  file w = None ->
  http w PRODUCT_URL = Ok html ->
  smtp_config w = Ok cfg ->
  (forall n d, mailer w n d = None) ->
  fst (main w) = Ok tt
  /\ map (fun x => Subject (msg (fst x))) (sends w (snd (main w)))
     = (if detect_available html then [RESTOCK_SUBJECT] else [])
       ++ [STATUS_SUBJECT]
  /\ persisted (snd (main w))
       [ (u "last_available", PBool (detect_available html));
         (u "last_status_email_utc", PStr (Datetime.isoformat (now_of w))) ].
Proof.
  intros F H C Hm.
  assert (L : fst (load_state w) = Ok default_state)
    by (unfold load_state; now rewrite F).
  unfold default_state in L.
  rewrite (@main_run w html _ cfg H L C). cbv zeta beta.
  rewrite !Hm.
  change (dict_get _ (u "last_available")) with PNone.
  change (dict_get _ (u "last_status_email_utc")) with PNone.
  change (should_send_12h_status PNone (now_of w)) with (@Ok bool true).
  cbv iota.
  change (dict_set
            (dict_set [(u "last_available", PNone);
                       (u "last_status_email_utc", PNone)]
                      (u "last_status_email_utc")
                      (PStr (Datetime.isoformat (now_of w))))
            (u "last_available") (PBool (detect_available html)))
    with [ (u "last_available", PBool (detect_available html));
           (u "last_status_email_utc", PStr (Datetime.isoformat (now_of w))) ].
  assert (E : utf8_encodable
                (Json.dumps
                   (PDict [ (u "last_available", PBool (detect_available html));
                            (u "last_status_email_utc",
                             PStr (Datetime.isoformat (now_of w))) ]) ++ nl)
              = true).
  { apply (@stock_state_encodable (Some (detect_available html))
             (Some (Datetime.isoformat (now_of w)))).
    intros t Et. injection Et as <-. apply isoformat_encodable. }
  rewrite E. unfold persisted.
  destruct (detect_available html); cbn [andb is_not_True]; cbv iota;
    sends_simpl; repeat split; cbn [map fst]; rewrite ?subject_delivery_of;
    reflexivity.
Qed.

(** X18: when [SMTP_PORT] is not set, the session is opened on port 587
    (for an [int] that reads the digits 587 as that number). *)
Theorem default_port_587 w cfg subject body :
  py_int (u "587") = Some 587%Z ->
  environ w (u "SMTP_PORT") = None ->
  smtp_config w = Ok cfg ->
  exists d o,
    sends w (snd (send_email subject body w)) = [(d, o)]
    /\ smtp_port d = 587%Z.
Proof.
  intros P E C. rewrite send_email_config, C.
  exists (delivery_of cfg subject body).
  exists (mailer w (List.length (smtp_log w)) (delivery_of cfg subject body)).
  split; [apply sends_smtp_send|].
  unfold smtp_config in C. rewrite E, P in C.
  destruct (environ w (u "SMTP_HOST")); [|discriminate C].
  destruct (environ w (u "SMTP_USERNAME")); [|discriminate C].
  destruct (environ w (u "SMTP_PASSWORD")); [|discriminate C].
  destruct (environ w (u "MAIL_FROM")); [|discriminate C].
  destruct (environ w (u "MAIL_TO")); [|discriminate C].
  injection C as <-. reflexivity.
Qed.

(** *** Transitions *)

(** With a complete configuration the restock message is handed to the
    mail library exactly when the restock test holds. *)
Lemma restock_attempted_spec w html st cfg :
  http w PRODUCT_URL = Ok html ->
  fst (load_state w) = Ok (PDict st) ->
  smtp_config w = Ok cfg ->
  (attempted RESTOCK_SUBJECT w (snd (main w))
   <-> detect_available html && is_not_True (dict_get st (u "last_available"))
       = true).
Proof.
  intros H L C.
  rewrite (@main_run w html st cfg H L C). cbv zeta beta.
  unfold attempted.
  destruct (detect_available html && is_not_True (dict_get st (u "last_available"))).
  - set (d1 := delivery_of cfg RESTOCK_SUBJECT _).
    destruct (mailer w (List.length (smtp_log w)) d1) as [e1|] eqn:O1.
    + sends_simpl. split; [reflexivity|]. intros _. is_sent d1 (Some e1).
    + destruct (should_send_12h_status _ (now_of w)) as [[|]|e];
        [ match goal with
          | |- context [mailer w ?n ?d] => destruct (mailer w n d)
          end | | ];
        repeat match goal with
               | |- context [utf8_encodable ?t] => destruct (utf8_encodable t)
               end;
        sends_simpl;
        (split; [reflexivity|]; intros _; is_sent d1 (@None exn)).
  - destruct (should_send_12h_status _ (now_of w)) as [[|]|e];
      [ match goal with
        | |- context [mailer w ?n ?d] => destruct (mailer w n d)
        end | | ];
      repeat match goal with
             | |- context [utf8_encodable ?t] => destruct (utf8_encodable t)
             end;
      sends_simpl;
      (split; [not_sent|discriminate]).
Qed.

(** X22: across runs the restock message marks the transition to
    available: after a run that ended normally, the next run, starting
    from the file it left with a complete configuration, hands a restock
    message to the mail library exactly when it classifies its page as
    available and the run before classified its page as not available. *)
Theorem restock_on_transition w w2 html st html2 cfg2 :
  fst (main w) = Ok tt ->
  http w PRODUCT_URL = Ok html ->
  fst (load_state w) = Ok (PDict st) ->
  Json.flat st = true ->
  file w2 = file (snd (main w)) ->
  http w2 PRODUCT_URL = Ok html2 ->
  smtp_config w2 = Ok cfg2 ->
  (attempted RESTOCK_SUBJECT w2 (snd (main w2))
   <-> detect_available html2 = true /\ detect_available html = false).
Proof.
  intros Done H L Hflat F H2 C2.
  destruct (@next_run_loads w w2 st Done L Hflat F)
    as (html0 & due & H0 & _ & _ & L2).
  rewrite H in H0. injection H0 as <-.
  rewrite (@restock_attempted_spec w2 html2 _ cfg2 H2 L2 C2).
  rewrite dict_get_set_same.
  destruct (detect_available html2), (detect_available html);
    cbn [andb is_not_True]; split;
    first [ intros E; discriminate E
          | intros [E1 E2]; first [discriminate E1 | discriminate E2]
          | intros _; split; reflexivity
          | intros _; reflexivity ].
Qed.

Lemma dict_set_same_value d k v :
  dict_get d k = v -> v <> PNone -> dict_set d k v = d.
Proof.
  intros G N. induction d as [|[k' v'] d IH]; cbn [dict_get dict_set] in *.
  - now elim N.
  - destruct (text_eqb k' k); [now rewrite G|]. now rewrite IH.
Qed.

(** X23: a run with nothing to report is idle.  When the state file is
    one the script wrote, its [last_available] is this run's
    classification and the status message is not due, the run ends
    normally, hands nothing to the mail library and leaves the file as it
    is, with or without a mail configuration. *)
Theorem idle_run_changes_nothing w html st :
  http w PRODUCT_URL = Ok html ->
  persisted w st ->
  fst (load_state w) = Ok (PDict st) ->
  utf8_encodable (Json.dumps (PDict st) ++ nl) = true ->
  dict_get st (u "last_available") = PBool (detect_available html) ->
  should_send_12h_status (dict_get st (u "last_status_email_utc")) (now_of w)
  = Ok false ->
  fst (main w) = Ok tt
  /\ sends w (snd (main w)) = []
  /\ file (snd (main w)) = file w.
Proof.
  intros H P L E A S. unfold persisted in P.
  assert (R : detect_available html
              && is_not_True (dict_get st (u "last_available")) = false).
  { rewrite A. destruct (detect_available html); reflexivity. }
  assert (D : dict_set st (u "last_available") (PBool (detect_available html))
              = st)
    by (apply dict_set_same_value; [exact A | discriminate]).
  destruct (smtp_config w) as [cfg|e] eqn:C.
  - rewrite (@main_run w html st cfg H L C). cbv zeta beta.
    rewrite R, S, D, E. sends_simpl.
    split; [reflexivity|]. split; [reflexivity|]. symmetry. exact P.
  - rewrite (@main_no_config w html st e H L C). cbv zeta beta.
    rewrite R, S, D, E. sends_simpl.
    split; [reflexivity|]. split; [reflexivity|]. symmetry. exact P.
Qed.
End Properties.

(* ================================================================= *)
(** ** Instances: the theorems at concrete pages, files and clocks *)

Notation run_main := (main Run.ci_eq Run.py_int Datetime.fromisoformat).

(** C2 at the page [Udsolgt ... Læg i kurv], which holds both an
    out-of-stock pattern and an in-stock hint. *)
Lemma out_of_stock_pattern_wins_witness :
  (exists pat, In pat OUT_OF_STOCK_PATTERNS
               /\ ci_occurs Run.ci_eq pat Run.page_sold_out)
  /\ (exists pat, In pat IN_STOCK_HINTS
                  /\ ci_occurs Run.ci_eq pat Run.page_sold_out)
  /\ detect_available Run.ci_eq Run.page_sold_out = false.
Proof.
  assert (H1 : exists pat, In pat OUT_OF_STOCK_PATTERNS
                           /\ ci_occurs Run.ci_eq pat Run.page_sold_out).
  { exists (u "Udsolgt"). split; [right; left; reflexivity|].
    apply re_search_spec. vm_compute. reflexivity. }
  split; [exact H1|]. split.
  - exists (u "Læg i kurv"). split; [right; left; reflexivity|].
    apply re_search_spec. vm_compute. reflexivity.
  - exact (@out_of_stock_pattern_wins Run.ci_eq Run.page_sold_out H1).
Defined.

Lemma absent_pattern pat html :
  re_search Run.ci_eq pat html = false -> ~ ci_occurs Run.ci_eq pat html.
Proof. intros E H. apply re_search_spec in H. congruence. Qed.

(** C7 at a page without any of the patterns. *)
Lemma no_signal_is_unavailable_witness :
  (forall pat, In pat OUT_OF_STOCK_PATTERNS ->
               ~ ci_occurs Run.ci_eq pat Run.page_blank)
  /\ (forall pat, In pat IN_STOCK_HINTS ->
                  ~ ci_occurs Run.ci_eq pat Run.page_blank)
  /\ detect_available Run.ci_eq Run.page_blank = false.
Proof.
  assert (H1 : forall pat, In pat OUT_OF_STOCK_PATTERNS ->
                           ~ ci_occurs Run.ci_eq pat Run.page_blank).
  { intros pat [<-|[<-|[]]]; apply absent_pattern; vm_compute; reflexivity. }
  assert (H2 : forall pat, In pat IN_STOCK_HINTS ->
                           ~ ci_occurs Run.ci_eq pat Run.page_blank).
  { intros pat [<-|[<-|[<-|[]]]]; apply absent_pattern; vm_compute; reflexivity. }
  split; [exact H1|]. split; [exact H2|].
  exact (@no_signal_is_unavailable Run.ci_eq Run.page_blank H1 H2).
Defined.



(** C5 at an available product and a time stamp written by [isoformat]. *)
Lemma save_then_load_roundtrip_witness :
  let ts := Datetime.isoformat (now_of (Run.world (Ok []) None Run.noon Run.mail_ok)) in
  utf8_encodable ts = true
  /\ fst ((save_state (stock_state (Some true) (Some ts)) ;;; load_state)
            (Run.world (Ok []) None Run.noon Run.mail_ok))
     = Ok (stock_state (Some true) (Some ts)).
Proof.
  intros ts.
  assert (E : utf8_encodable ts = true) by (vm_compute; reflexivity).
  split; [exact E|].
  apply (@save_then_load_roundtrip (Some true) (Some ts)).
  intros t Ht. injection Ht as <-. exact E.
Defined.

(** C3 when the last run saw the product out of stock and this one sees it
    in stock. *)
Lemma restock_alert_iff_witness :
  let w := Run.world (Ok Run.page_in_stock)
                     (Run.state_file (PBool false) PNone)
                     Run.noon Run.mail_ok in
  http w PRODUCT_URL = Ok Run.page_in_stock
  /\ fst (load_state w) = Ok (PDict (Run.state_dict (PBool false) PNone))
  /\ detect_available Run.ci_eq Run.page_in_stock = true
  /\ attempted RESTOCK_SUBJECT w (snd (run_main w))
  /\ delivered RESTOCK_SUBJECT w (snd (run_main w)).
Proof.
  intros w.
  assert (H : http w PRODUCT_URL = Ok Run.page_in_stock) by reflexivity.
  assert (L : fst (load_state w)
              = Ok (PDict (Run.state_dict (PBool false) PNone)))
    by (vm_compute; reflexivity).
  assert (C : smtp_config Run.py_int w
              = Ok (u "smtp.example.org", 587%Z, u "bot", u "secret",
                    u "bot@example.org",
                    u " ann@example.org, ,bo@example.org ,"))
    by (vm_compute; reflexivity).
  assert (A : detect_available Run.ci_eq Run.page_in_stock = true)
    by (vm_compute; reflexivity).
  destruct (@restock_alert_iff Run.ci_eq Run.py_int Datetime.fromisoformat
              w _ _ _ H L C) as [At De].
  assert (Due : detect_available Run.ci_eq Run.page_in_stock = true
                /\ dict_get (Run.state_dict (PBool false) PNone)
                            (u "last_available") <> PBool true).
  { split; [exact A|]. intros E. vm_compute in E. discriminate E. }
  split; [exact H|]. split; [exact L|]. split; [exact A|].
  split; [apply At; exact Due|].
  apply De; [intros d; reflexivity | exact Due].
Defined.

(** C4 at the boundary: the last status message went out at 00:00:00 and
    the run starts at 12:00:00 of the same day. *)
Lemma status_email_iff_witness :
  let stamp := PStr (u "2024-05-17T00:00:00+00:00") in
  let w := Run.world (Ok Run.page_sold_out)
                     (Run.state_file (PBool false) stamp)
                     Run.noon Run.mail_ok in
  fst (load_state w) = Ok (PDict (Run.state_dict (PBool false) stamp))
  /\ fst (run_main w) = Ok tt
  /\ (exists last, parse_iso Datetime.fromisoformat stamp = Ok last
                   /\ Datetime.sub (now_of w) last = Ok (12 * 3600 * 1000000)%Z)
  /\ delivered STATUS_SUBJECT w (snd (run_main w))
  /\ exists st', persisted (snd (run_main w)) st'
                 /\ dict_get st' (u "last_status_email_utc")
                    = PStr (u "2024-05-17T12:00:00+00:00").
Proof.
  intros stamp w.
  assert (H : http w PRODUCT_URL = Ok Run.page_sold_out) by reflexivity.
  assert (L : fst (load_state w)
              = Ok (PDict (Run.state_dict (PBool false) stamp)))
    by (vm_compute; reflexivity).
  assert (C : smtp_config Run.py_int w
              = Ok (u "smtp.example.org", 587%Z, u "bot", u "secret",
                    u "bot@example.org",
                    u " ann@example.org, ,bo@example.org ,"))
    by (vm_compute; reflexivity).
  assert (Done : fst (run_main w) = Ok tt) by (vm_compute; reflexivity).
  assert (P : exists last,
             parse_iso Datetime.fromisoformat stamp = Ok last
             /\ Datetime.sub (now_of w) last = Ok (12 * 3600 * 1000000)%Z).
  { eexists. split; [vm_compute; reflexivity|]. vm_compute. reflexivity. }
  split; [exact L|]. split; [exact Done|]. split; [exact P|].
  destruct (@status_email_iff Run.ci_eq Run.py_int Datetime.fromisoformat
              w _ _ _ H L C)
    as [Sent Kept].
  { right. exists (u "2024-05-17T00:00:00+00:00").
    split; [vm_compute; reflexivity | vm_compute; discriminate]. }
  assert (Due : dict_get (Run.state_dict (PBool false) stamp)
                         (u "last_status_email_utc") = PNone
                \/ exists last td,
                     parse_iso Datetime.fromisoformat
                       (dict_get (Run.state_dict (PBool false) stamp)
                                 (u "last_status_email_utc")) = Ok last
                     /\ Datetime.sub (now_of w) last = Ok td
                     /\ (12 * 3600 * 1000000 <= td)%Z).
  { right. destruct P as (last & P1 & P2).
    exists last, (12 * 3600 * 1000000)%Z.
    split; [exact P1|]. split; [exact P2|]. apply Z.le_refl. }
  split; [apply Sent; [intros n d; reflexivity | exact Due]|].
  destruct (Kept Done) as (_ & st' & Pe & Up & _).
  exists st'. split; [exact Pe|]. rewrite (Up Due). vm_compute. reflexivity.
Defined.

(** C8 on a first run that finds the product in stock. *)
Lemma persist_overwrites_availability_witness :
  let w := Run.world (Ok Run.page_in_stock) None Run.noon Run.mail_ok in
  fst (run_main w) = Ok tt
  /\ exists st', persisted (snd (run_main w)) st'
                 /\ dict_get st' (u "last_available") = PBool true.
Proof.
  intros w.
  assert (Done : fst (run_main w) = Ok tt) by (vm_compute; reflexivity).
  split; [exact Done|].
  destruct (@persist_overwrites_availability Run.ci_eq Run.py_int
              Datetime.fromisoformat w Done)
    as (html & st & st' & H & L & P & A & _).
  exists st'. split; [exact P|]. rewrite A.
  injection H as <-. vm_compute. reflexivity.
Defined.

(** C6 twice: the mail server is down at the restock message, and at the
    status message after the restock message went out. *)
Lemma send_failure_aborts_witness :
  let w1 := Run.world (Ok Run.page_in_stock) None Run.noon Run.mail_down in
  let w2 := Run.world (Ok Run.page_in_stock) None Run.noon
                      Run.mail_second_down in
  (fst (run_main w1) = Raise DeliveryError
   /\ file (snd (run_main w1)) = None
   /\ Run.subjects (snd (run_main w1)) = [RESTOCK_SUBJECT])
  /\ (fst (run_main w2) = Raise DeliveryError
      /\ file (snd (run_main w2)) = None
      /\ Run.subjects (snd (run_main w2)) = [RESTOCK_SUBJECT; STATUS_SUBJECT]).
Proof.
  intros w1 w2. split.
  - destruct (@send_failure_aborts Run.ci_eq Run.py_int Datetime.fromisoformat
                w1 (Run.nth_send 0 (snd (run_main w1))) DeliveryError)
      as (R & F & _).
    + vm_compute. left. reflexivity.
    + split; [exact R|]. split; [exact F|]. vm_compute. reflexivity.
  - destruct (@send_failure_aborts Run.ci_eq Run.py_int Datetime.fromisoformat
                w2 (Run.nth_send 1 (snd (run_main w2))) DeliveryError)
      as (R & F & _).
    + vm_compute. right. left. reflexivity.
    + split; [exact R|]. split; [exact F|]. vm_compute. reflexivity.
Defined.

(** C1, as the code has it, without a state file and with one that is not
    JSON. *)
Lemma load_state_unparseable_raises_witness :
  let w0 := Run.world (Ok Run.page_in_stock) None Run.noon Run.mail_ok in
  let w1 := Run.world (Ok Run.page_in_stock)
                      (Some (u "{ last_available: true }"))
                      Run.noon Run.mail_ok in
  load_state w0 = (Ok default_state, w0)
  /\ Json.loads (u "{ last_available: true }") = Raise JSONDecodeError
  /\ load_state w1 = (Raise JSONDecodeError, w1)
  /\ run_main w1 = (Raise JSONDecodeError, w1).
Proof.
  intros w0 w1.
  assert (P : Json.loads (u "{ last_available: true }") = Raise JSONDecodeError)
    by (vm_compute; reflexivity).
  split.
  - apply (proj1 (@load_state_unparseable_raises Run.ci_eq Run.py_int
                    Datetime.fromisoformat w0)). reflexivity.
  - split; [exact P|].
    destruct (proj2 (@load_state_unparseable_raises Run.ci_eq Run.py_int
                       Datetime.fromisoformat w1)
                _ _ eq_refl P) as [E M].
    split; [exact E|]. apply (M Run.page_in_stock). reflexivity.
Defined.

(** C1 as stated fails: with a state file that is not JSON, [load_state]
    does not give the default state, and the run ends with the decoder's
    exception before anything is sent or written. *)
Lemma load_state_unparseable_counterexample :
  let w := Run.world (Ok Run.page_in_stock)
                     (Some (u "{ last_available: true }"))
                     Run.noon Run.mail_ok in
  fst (load_state w) <> Ok default_state
  /\ fst (run_main w) = Raise JSONDecodeError
  /\ smtp_log (snd (run_main w)) = []
  /\ file (snd (run_main w)) = file w.
Proof.
  intros w. split; [|vm_compute; repeat split].
  intros E. vm_compute in E. discriminate E.
Qed.

(* ================================================================= *)
(** ** The 12-hour rule with CPython's [fromisoformat] *)

Lemma isoformat_nonempty d : nonempty (Datetime.isoformat d) = true.
Proof. reflexivity. Qed.

(** The 12-hour test on a time stamp written by [isoformat]. *)
Lemma gating_on_written_stamp d now o :
  Datetime.valid d = true -> utcoffset d = Some 0%Z -> utcoffset now = Some o ->
  Run.should_send_12h_status (PStr (Datetime.isoformat d)) now
  = Ok (12 * 3600 * 1000000
        <=? Datetime.local_us now - o - Datetime.local_us d)%Z.
Proof.
  intros V O N. unfold Run.should_send_12h_status, should_send_12h_status.
  cbn [truthy]. rewrite isoformat_nonempty. cbn [negb].
  rewrite (@DatetimeFacts.parse_iso_isoformat d V O).
  unfold Datetime.sub. rewrite N, O. unfold Datetime.total_seconds_ge.
  do 2 f_equal. lia.
Qed.

(** X19: the time stamp a run writes is one the next run can use: what
    [isoformat] prints for a UTC time, [parse_iso] reads back as that time,
    and the 12-hour test on it answers yes exactly from twelve hours after
    it on, to the microsecond. *)
Theorem written_stamp_read_back d now o :
  Datetime.valid d = true -> utcoffset d = Some 0%Z -> utcoffset now = Some o ->
  Run.parse_iso (PStr (Datetime.isoformat d)) = Ok d
  /\ (Run.should_send_12h_status (PStr (Datetime.isoformat d)) now = Ok true
      <-> (12 * 3600 * 1000000
           <= Datetime.local_us now - o - Datetime.local_us d)%Z).
Proof.
  intros V O N. split; [exact (@DatetimeFacts.parse_iso_isoformat d V O)|].
  rewrite (@gating_on_written_stamp d now o V O N). split.
  - intros E. injection E as E. now apply Z.leb_le.
  - intros E. f_equal. now apply Z.leb_le.
Qed.

(** X20: status messages are at least twelve hours apart.  After a run
    that delivered the status message and ended normally, a run that
    starts from the file it left, with a page it can fetch, a complete
    configuration and a mail library that delivers, sends the status
    message exactly when its clock is twelve hours or more past the clock
    of the first run. *)
Theorem status_twelve_hours_apart w w2 st html2 cfg2 :
  fst (run_main w) = Ok tt ->
  fst (load_state w) = Ok (PDict st) ->
  Json.flat st = true ->
  delivered STATUS_SUBJECT w (snd (run_main w)) ->
  Datetime.valid (now_of w) = true ->
  file w2 = file (snd (run_main w)) ->
  http w2 PRODUCT_URL = Ok html2 ->
  smtp_config Run.py_int w2 = Ok cfg2 ->
  (forall n d, mailer w2 n d = None) ->
  (delivered STATUS_SUBJECT w2 (snd (run_main w2))
   <-> (12 * 3600 * 1000000
        <= Datetime.local_us (now_of w2) - Datetime.local_us (now_of w))%Z).
Proof.
  intros Done L Hflat Sent V F H2 C2 Hm.
  destruct (@next_run_loads Run.ci_eq Run.py_int Datetime.fromisoformat
              w w2 st Done L Hflat F)
    as (html & due & H & _ & D & L2).
  apply D in Sent. subst due.
  rewrite (@status_delivered_iff_due Run.ci_eq Run.py_int Datetime.fromisoformat
             w2 html2 _ cfg2 H2 L2 C2 Hm).
  rewrite dict_get_set_other by exact state_keys_differ.
  rewrite dict_get_set_same.
  pose proof (@gating_on_written_stamp (now_of w) (now_of w2) 0%Z V
                eq_refl eq_refl) as G.
  unfold Run.should_send_12h_status in G. rewrite G. rewrite Z.sub_0_r.
  split.
  - intros E. injection E as E. now apply Z.leb_le.
  - intros E. f_equal. now apply Z.leb_le.
Qed.

(* ================================================================= *)
(** ** Instances of the further properties *)

(** An environment without any variable. *)
Notation bare_world page f :=
  (mk_world (fun _ => page) f (fun _ => None) (Run.clock_from Run.noon) 0
            Run.mail_ok [] []).

(** X2 when the shop cannot be reached. *)
Lemma fetch_failure_aborts_witness :
  let w := Run.world (Raise NetworkError) None Run.noon Run.mail_ok in
  run_main w = (Raise NetworkError, w).
Proof.
  intros w.
  exact (@fetch_failure_aborts Run.ci_eq Run.py_int Datetime.fromisoformat
           w NetworkError eq_refl).
Defined.

(** X3 at a state file that holds a JSON list. *)
Lemma non_object_state_aborts_witness :
  let w := Run.world (Ok Run.page_blank) (Some (u "[]")) Run.noon Run.mail_ok in
  Json.loads (u "[]") = Ok (PList [])
  /\ load_state w = (Ok (PList []), w)
  /\ run_main w = (Raise AttributeError, w).
Proof.
  intros w.
  assert (P : Json.loads (u "[]") = Ok (PList [])) by (vm_compute; reflexivity).
  split; [exact P|].
  apply (@non_object_state_aborts Run.ci_eq Run.py_int Datetime.fromisoformat
           w Run.page_blank (u "[]") (PList []) eq_refl eq_refl P).
  intros d E. discriminate E.
Defined.

(** X5 when the mail server is down. *)
Lemma failing_run_keeps_state_file_witness :
  let w := Run.world (Ok Run.page_in_stock) None Run.noon Run.mail_down in
  fst (run_main w) = Raise DeliveryError
  /\ (file (snd (run_main w)) = file w
      \/ (DeliveryError = UnicodeEncodeError
          /\ file (snd (run_main w)) = Some [])).
Proof.
  intros w.
  assert (F : fst (run_main w) = Raise DeliveryError)
    by (vm_compute; reflexivity).
  split; [exact F|].
  exact (@failing_run_keeps_state_file Run.ci_eq Run.py_int
           Datetime.fromisoformat w DeliveryError F).
Defined.

(** X7 at a time stamp that is no date, with the product back in stock. *)
Lemma unreadable_stamp_aborts_after_restock_witness :
  let w := Run.world (Ok Run.page_in_stock)
                     (Run.state_file (PBool false) (PStr (u "yesterday")))
                     Run.noon Run.mail_ok in
  fst (run_main w) = Raise ValueError
  /\ file (snd (run_main w)) = file w
  /\ Run.subjects (snd (run_main w)) = [RESTOCK_SUBJECT].
Proof.
  intros w.
  assert (H : http w PRODUCT_URL = Ok Run.page_in_stock) by reflexivity.
  assert (L : fst (load_state w)
              = Ok (PDict (Run.state_dict (PBool false) (PStr (u "yesterday")))))
    by (vm_compute; reflexivity).
  assert (C : smtp_config Run.py_int w
              = Ok (u "smtp.example.org", 587%Z, u "bot", u "secret",
                    u "bot@example.org",
                    u " ann@example.org, ,bo@example.org ,"))
    by (vm_compute; reflexivity).
  destruct (@unreadable_stamp_aborts_after_restock Run.ci_eq Run.py_int
              Datetime.fromisoformat w _ _ _ ValueError H L C)
    as (R & F & _).
  - intros n d. reflexivity.
  - vm_compute. reflexivity.
  - split; [exact R|]. split; [exact F|]. vm_compute. reflexivity.
Defined.

(** X8 at a time stamp without zone. *)
Lemma gating_on_unusable_stamps_witness :
  let now := now_of (Run.world (Ok []) None Run.noon Run.mail_ok) in
  Run.should_send_12h_status (PStr []) now = Ok true
  /\ Run.should_send_12h_status (PInt 1) now = Raise AttributeError
  /\ Run.should_send_12h_status (PStr (u "2024-05-17T00:00:00")) now
     = Raise TypeError.
Proof.
  intros now. split; [|split].
  - apply (@gating_on_unusable_stamps Datetime.fromisoformat (PStr []) now).
    reflexivity.
  - apply (@gating_on_unusable_stamps Datetime.fromisoformat (PInt 1) now).
    + reflexivity.
    + intros s E. discriminate E.
  - apply (proj2 (proj2 (@gating_on_unusable_stamps Datetime.fromisoformat
                           (PStr (u "2024-05-17T00:00:00")) now))
             (u "2024-05-17T00:00:00")
             (mk_datetime 2024 5 17 0 0 0 0 None) 0%Z).
    + reflexivity.
    + vm_compute. discriminate.
    + vm_compute. reflexivity.
    + reflexivity.
    + reflexivity.
Defined.

(** X9 in an empty environment. *)
Lemma missing_variable_sends_nothing_witness :
  let w := bare_world (Ok Run.page_blank) None in
  exists e, send_email Run.py_int [] [] w = (Raise e, w).
Proof.
  intros w.
  destruct (@missing_variable_sends_nothing Run.py_int w (u "MAIL_TO") [] [])
    as (e & S & _).
  - cbn [In]. do 4 right. left. reflexivity.
  - reflexivity.
  - exists e. exact S.
Defined.

(** X10 on a first run in an empty environment. *)
Lemma unconfigured_run_witness :
  let w := bare_world (Ok Run.page_blank) None in
  sends w (snd (run_main w)) = []
  /\ fst (run_main w) = Raise (KeyError (u "SMTP_HOST"))
  /\ file (snd (run_main w)) = None.
Proof.
  intros w.
  destruct (@unconfigured_run Run.ci_eq Run.py_int Datetime.fromisoformat
              w Run.page_blank
              [ (u "last_available", PNone); (u "last_status_email_utc", PNone) ]
              (KeyError (u "SMTP_HOST")) true)
    as (S & R & _).
  - reflexivity.
  - reflexivity.
  - vm_compute. reflexivity.
  - reflexivity.
  - split; [exact S|]. apply R. vm_compute. reflexivity.
Defined.

(** X13 from noon to an hour later, read in another zone. *)
Lemma due_stays_due_witness :
  let stamp := PStr (u "2024-05-17T00:00:00+00:00") in
  let now := mk_datetime 2024 5 17 12 0 0 0 (Some 0%Z) in
  let now' := mk_datetime 2024 5 17 14 0 0 0 (Some 3600000000%Z) in
  Run.should_send_12h_status stamp now = Ok true
  /\ Run.should_send_12h_status stamp now' = Ok true.
Proof.
  intros stamp now now'.
  assert (D : Run.should_send_12h_status stamp now = Ok true)
    by (vm_compute; reflexivity).
  split; [exact D|].
  apply (@due_stays_due Datetime.fromisoformat stamp now now' 0%Z
           3600000000%Z eq_refl eq_refl); [|exact D].
  apply Z.leb_le. vm_compute. reflexivity.
Defined.

(** X14 at a dict with a key of the user's own. *)
Lemma save_then_load_any_flat_dict_witness :
  let d := [ (u "last_available", PBool true);
             (u "note", PStr (u "købt på tilbud"));
             (u "last_status_email_utc", PNone) ] in
  fst ((save_state (PDict d) ;;; load_state)
         (Run.world (Ok []) None Run.noon Run.mail_ok))
  = Ok (PDict d).
Proof.
  intros d.
  rewrite (@save_then_load_any_flat_dict d
             (Run.world (Ok []) None Run.noon Run.mail_ok)).
  - reflexivity.
  - vm_compute. reflexivity.
  - repeat constructor; cbn [In map fst];
      intros E; repeat (destruct E as [E|E]; [vm_compute in E; discriminate E|]);
      exact E.
  - constructor; [|constructor; [|constructor; [|constructor]]];
      (split; [vm_compute; reflexivity|]); cbn [snd]; intros s E;
      first [ discriminate E | injection E as <-; vm_compute; reflexivity ].
Defined.

(** X15 at a state with a lone surrogate, as the escape [\ud800] in a
    state file gives it. *)
Lemma unencodable_state_blocks_next_run_witness :
  let st := PDict [ (u "last_available", PStr [0xD800%N]) ] in
  let w := Run.world (Ok Run.page_blank) None Run.noon Run.mail_ok in
  let w2 := Run.world (Ok Run.page_blank) (Some []) Run.noon Run.mail_ok in
  fst (save_state st w) = Raise UnicodeEncodeError
  /\ run_main w2 = (Raise JSONDecodeError, w2).
Proof.
  intros st w w2.
  apply (@unencodable_state_blocks_next_run Run.ci_eq Run.py_int
           Datetime.fromisoformat st w w2 Run.page_blank).
  - vm_compute. reflexivity.
  - vm_compute. reflexivity.
  - reflexivity.
Defined.

(** X16 after a run that found the product back in stock. *)
Lemma restock_not_repeated_witness :
  let w := Run.world (Ok Run.page_in_stock)
                     (Run.state_file (PBool false) Run.recent)
                     Run.noon Run.mail_ok in
  let w2 := Run.world (Ok Run.page_in_stock) (file (snd (run_main w)))
                      Run.noon Run.mail_ok in
  Run.subjects (snd (run_main w)) = [RESTOCK_SUBJECT]
  /\ ~ attempted RESTOCK_SUBJECT w2 (snd (run_main w2)).
Proof.
  intros w w2. split; [vm_compute; reflexivity|].
  apply (@restock_not_repeated Run.ci_eq Run.py_int Datetime.fromisoformat
           w w2 Run.page_in_stock (Run.state_dict (PBool false) Run.recent)).
  - vm_compute. reflexivity.
  - reflexivity.
  - vm_compute. reflexivity.
  - vm_compute. reflexivity.
  - vm_compute. reflexivity.
  - reflexivity.
Defined.

(** X17 with the product in stock. *)
Lemma first_run_without_state_file_witness :
  let w := Run.world (Ok Run.page_in_stock) None Run.noon Run.mail_ok in
  fst (run_main w) = Ok tt
  /\ Run.subjects (snd (run_main w)) = [RESTOCK_SUBJECT; STATUS_SUBJECT]
  /\ file (snd (run_main w))
     = Run.state_file (PBool true) (PStr (u "2024-05-17T12:00:00+00:00")).
Proof.
  intros w.
  destruct (@first_run_without_state_file Run.ci_eq Run.py_int Datetime.fromisoformat w
              Run.page_in_stock
              (u "smtp.example.org", 587%Z, u "bot", u "secret",
               u "bot@example.org", u " ann@example.org, ,bo@example.org ,"))
    as (R & _ & P).
  - reflexivity.
  - reflexivity.
  - vm_compute. reflexivity.
  - intros n d. reflexivity.
  - split; [exact R|]. split; [vm_compute; reflexivity|].
    rewrite P. vm_compute. reflexivity.
Defined.

(** X18 in the environment of the scenarios, which sets no port. *)
Lemma default_port_587_witness :
  let w := Run.world (Ok []) None Run.noon Run.mail_ok in
  exists d o,
    sends w (snd (send_email Run.py_int [] [] w)) = [(d, o)]
    /\ smtp_port d = 587%Z.
Proof.
  intros w.
  apply (@default_port_587 Run.py_int w
           (u "smtp.example.org", 587%Z, u "bot", u "secret",
            u "bot@example.org", u " ann@example.org, ,bo@example.org ,")).
  - vm_compute. reflexivity.
  - vm_compute. reflexivity.
  - vm_compute. reflexivity.
Defined.

(** X19 at noon, read twelve hours later. *)
Lemma written_stamp_read_back_witness :
  let d := mk_datetime 2024 5 17 12 0 0 0 (Some 0%Z) in
  let now := mk_datetime 2024 5 18 0 0 0 0 (Some 0%Z) in
  Datetime.isoformat d = u "2024-05-17T12:00:00+00:00"
  /\ Run.parse_iso (PStr (Datetime.isoformat d)) = Ok d
  /\ Run.should_send_12h_status (PStr (Datetime.isoformat d)) now = Ok true.
Proof.
  intros d now. split; [vm_compute; reflexivity|].
  destruct (@written_stamp_read_back d now 0%Z) as [P G].
  - vm_compute. reflexivity.
  - reflexivity.
  - reflexivity.
  - split; [exact P|]. apply G. apply Z.leb_le. vm_compute. reflexivity.
Defined.

(** X20: a first run at noon, and the next run an hour later. *)
Lemma status_twelve_hours_apart_witness :
  let w := Run.world (Ok Run.page_blank) None Run.noon Run.mail_ok in
  let w2 := Run.world (Ok Run.page_blank) (file (snd (run_main w)))
                      (mk_datetime 2024 5 17 13 0 0 0 None) Run.mail_ok in
  Run.subjects (snd (run_main w)) = [STATUS_SUBJECT]
  /\ ~ delivered STATUS_SUBJECT w2 (snd (run_main w2)).
Proof.
  intros w w2. split; [vm_compute; reflexivity|].
  intros D.
  apply (@status_twelve_hours_apart w w2
           [ (u "last_available", PNone); (u "last_status_email_utc", PNone) ]
           Run.page_blank
           (u "smtp.example.org", 587%Z, u "bot", u "secret",
            u "bot@example.org", u " ann@example.org, ,bo@example.org ,"))
    in D.
  - apply Z.leb_le in D. vm_compute in D. discriminate D.
  - vm_compute. reflexivity.
  - reflexivity.
  - reflexivity.
  - exists (Run.nth_send 0 (snd (run_main w))). vm_compute.
    split; [left; reflexivity | reflexivity].
  - vm_compute. reflexivity.
  - reflexivity.
  - reflexivity.
  - vm_compute. reflexivity.
  - intros n d. reflexivity.
Defined.


(** X22: the product is sold out in one run and back in the next. *)
Lemma restock_on_transition_witness :
  let w := Run.world (Ok Run.page_sold_out)
                     (Run.state_file (PBool false) Run.recent)
                     Run.noon Run.mail_ok in
  let w2 := Run.world (Ok Run.page_in_stock) (file (snd (run_main w)))
                      Run.noon Run.mail_ok in
  attempted RESTOCK_SUBJECT w2 (snd (run_main w2)).
Proof.
  intros w w2.
  apply (@restock_on_transition Run.ci_eq Run.py_int Datetime.fromisoformat
           w w2 Run.page_sold_out (Run.state_dict (PBool false) Run.recent)
           Run.page_in_stock
           (u "smtp.example.org", 587%Z, u "bot", u "secret",
            u "bot@example.org", u " ann@example.org, ,bo@example.org ,")).
  - vm_compute. reflexivity.
  - reflexivity.
  - vm_compute. reflexivity.
  - vm_compute. reflexivity.
  - reflexivity.
  - reflexivity.
  - vm_compute. reflexivity.
  - split; vm_compute; reflexivity.
Defined.

(** X23 an hour after the last status message, the product still sold
    out. *)
Lemma idle_run_changes_nothing_witness :
  let w := Run.world (Ok Run.page_sold_out)
                     (Run.state_file (PBool false) Run.recent)
                     Run.noon Run.mail_ok in
  fst (run_main w) = Ok tt
  /\ sends w (snd (run_main w)) = []
  /\ file (snd (run_main w)) = file w.
Proof.
  intros w.
  apply (@idle_run_changes_nothing Run.ci_eq Run.py_int Datetime.fromisoformat
           w Run.page_sold_out (Run.state_dict (PBool false) Run.recent)).
  - reflexivity.
  - reflexivity.
  - vm_compute. reflexivity.
  - vm_compute. reflexivity.
  - vm_compute. reflexivity.
  - vm_compute. reflexivity.
Defined.

(* ================================================================= *)
(** ** Scenarios: runs of the script on concrete worlds *)

Module Scenarios.

(** The patterns are found in any case, and out-of-stock wins. *)
Example classify_pages :
  Run.detect_available (u "Udsolgt ... Læg i kurv") = false
  /\ Run.detect_available (u "På lager ✅") = true
  /\ Run.detect_available (u "IKKE PÅ LAGER") = false
  /\ Run.detect_available (u "tilføj TIL kurv") = true
  /\ Run.detect_available (u "") = false.
Proof. vm_compute. repeat split. Qed.

(** A page with an out-of-stock banner and a stale cart button: no restock
    message whatever the state, here none at all within twelve hours. *)
Example sold_out_with_cart_button :
  Run.observe (Run.world (Ok Run.page_sold_out) (Run.state_file PNone Run.recent)
                     Run.noon Run.mail_ok)
  = (Ok tt, [], Run.state_file (PBool false) Run.recent).
Proof. vm_compute. reflexivity. Qed.

(** First run, product in stock: both messages, and the state records the
    availability and the time of the run. *)
Example first_run_in_stock :
  Run.observe (Run.world (Ok Run.page_in_stock) None Run.noon Run.mail_ok)
  = (Ok tt, [RESTOCK_SUBJECT; STATUS_SUBJECT],
     Run.state_file (PBool true) (PStr (u "2024-05-17T12:00:00+00:00"))).
Proof. vm_compute. reflexivity. Qed.

(** Exactly twelve hours after the last status message: one is sent. *)
Example gating_at_twelve_hours :
  Run.observe (Run.world (Ok Run.page_blank)
             (Run.state_file (PBool false) (PStr (u "2024-05-17T00:00:00+00:00")))
             Run.noon Run.mail_ok)
  = (Ok tt, [STATUS_SUBJECT],
     Run.state_file (PBool false) (PStr (u "2024-05-17T12:00:00+00:00"))).
Proof. vm_compute. reflexivity. Qed.

(** Eleven hours and fifty-nine minutes after it: none, and the time stamp
    stays. *)
Example gating_one_minute_short :
  Run.observe (Run.world (Ok Run.page_blank)
             (Run.state_file (PBool false) (PStr (u "2024-05-17T00:01:00+00:00")))
             Run.noon Run.mail_ok)
  = (Ok tt, [],
     Run.state_file (PBool false) (PStr (u "2024-05-17T00:01:00+00:00"))).
Proof. vm_compute. reflexivity. Qed.

(** A time stamp edited by hand to end in [Z], and one in another zone. *)
Example gating_other_notations :
  fst (Run.observe (Run.world (Ok Run.page_blank)
                  (Run.state_file (PBool false) (PStr (u "2024-05-17T00:00:00Z")))
                  Run.noon Run.mail_ok))
  = (Ok tt, [STATUS_SUBJECT])
  /\ fst (Run.observe (Run.world (Ok Run.page_blank)
                     (Run.state_file (PBool false)
                        (PStr (u "2024-05-17T02:00:00+02:00")))
                     Run.noon Run.mail_ok))
     = (Ok tt, [STATUS_SUBJECT])
  /\ fst (Run.observe (Run.world (Ok Run.page_blank)
                     (Run.state_file (PBool false)
                        (PStr (u "2024-05-17T02:00:01+02:00")))
                     Run.noon Run.mail_ok))
     = (Ok tt, []).
Proof. vm_compute. repeat split. Qed.

(** The restock message goes out once: the run after it finds
    [last_available] true. *)
Example restock_fires_once :
  let w1 := Run.world (Ok Run.page_in_stock)
                      (Run.state_file (PBool false) Run.recent)
                      Run.noon Run.mail_ok in
  let w2 := Run.world (Ok Run.page_in_stock) (file (snd (Run.main w1)))
                      Run.noon Run.mail_ok in
  fst (Run.observe w1) = (Ok tt, [RESTOCK_SUBJECT])
  /\ fst (Run.observe w2) = (Ok tt, []).
Proof. vm_compute. split; reflexivity. Qed.

(** Failures that end a run: the page cannot be fetched, the state file
    holds a JSON list, a variable of the environment is missing. *)
Example fatal_errors :
  Run.observe (Run.world (Raise NetworkError) None Run.noon Run.mail_ok)
  = (Raise NetworkError, [], None)
  /\ Run.observe (Run.world (Ok Run.page_blank) (Some (u "[]")) Run.noon Run.mail_ok)
     = (Raise AttributeError, [], Some (u "[]"))
  /\ fst (main Run.ci_eq Run.py_int Datetime.fromisoformat
            (mk_world (fun _ => Ok Run.page_blank) None (fun _ => None)
                      (Run.clock_from Run.noon) 0 Run.mail_ok [] []))
     = Raise (KeyError (u "SMTP_HOST")).
Proof. vm_compute. repeat split. Qed.

End Scenarios.
